(** * Azure Cosmos DB TLS scanner: signer and prober

    A shallow embedding of [cosmos_tls_scanner.py] and the properties of its
    request signature ([_get_auth_header]) and of its per-version probing
    loop ([main]).

    Conventions.  A Python [str] is a Rocq [string] holding the UTF-8
    encoding of the text, so that [encode("utf-8")] is the passage from
    [string] to [bytes] and every ASCII operation reads as in the source.
    A Python [bytes] is a [list byte].  Python exceptions are the values of
    [exn]; a function that can raise returns a [result].

    The library functions the signer calls ([base64], [hmac], [hashlib],
    [urllib.parse.quote]) are modelled in full.  What belongs to the
    interpreter and to the outside is a parameter: [str.lower] and
    [str.strip], the attributes of the [ssl] module, the clock and the
    network.  The prober runs in a small state and exception monad over the
    lines printed, the requests sent and the clock readings. *)

From Stdlib Require Import ZArith List String Ascii Bool Lia.
From Stdlib Require Import Strings.Byte DecimalString.
Import ListNotations.

Local Open Scope Z_scope.

(* ================================================================== *)
(** * Python values the program handles *)

Definition bytes := list byte.

Definition Z_of_byte (b : byte) : Z := Z.of_N (Byte.to_N b).

Definition byte_of_Z (z : Z) : byte :=
  match Byte.of_N (Z.to_N (z mod 256)) with
  | Some b => b
  | None => x00
  end.

Definition Z_of_ascii (c : ascii) : Z := Z.of_N (N_of_ascii c).

(** [str.encode("utf-8")] and [bytes.decode("utf-8")] on text held as UTF-8. *)
Definition encode_utf8 (s : string) : bytes := list_byte_of_string s.
Definition decode_utf8 (b : bytes) : string := string_of_list_byte b.

(** Exceptions the program can meet. *)
Inductive exn : Type :=
| ValueError        (* b64decode: the key text is not ASCII *)
| BinasciiError     (* binascii.Error: data characters left in an open quad *)
| RequestException (detail : string). (* raised by session.request *)

Inductive result (A : Type) : Type :=
| Ok (a : A)
| Raise (e : exn).
Arguments Ok {A} a.
Arguments Raise {A} e.

Definition rbind {A B} (r : result A) (k : A -> result B) : result B :=
  match r with
  | Ok a => k a
  | Raise e => Raise e
  end.

(** [None] or an [int]: what the program stores as [ssl_version]. *)
Inductive pyval : Type :=
| PyNone
| PyInt (n : Z).

(** Python truthiness of such a value: [None] and [0] are falsy. *)
Definition truthy (v : pyval) : bool :=
  match v with
  | PyNone => false
  | PyInt n => negb (n =? 0)
  end.

(** Truthiness of an optional command-line string: [None] and the empty string are falsy. *)
Definition str_truthy (o : option string) : bool :=
  match o with
  | None => false
  | Some s => negb (String.eqb s EmptyString)
  end.

(* ================================================================== *)
(** * Lists cut into pieces of a fixed size *)

Fixpoint chunks_fuel {A} (fuel n : nat) (l : list A) : list (list A) :=
  match fuel with
  | O => []
  | S fuel' =>
      match l with
      | [] => []
      | _ => firstn n l :: chunks_fuel fuel' n (skipn n l)
      end
  end.

(** [[s[i:i+n] for i in range(0, len(s), n)]]; [length l] steps are enough. *)
Definition chunks {A} (n : nat) (l : list A) : list (list A) :=
  chunks_fuel (List.length l) n l.

(* ================================================================== *)
(** * binascii and base64 *)

Module Base64.

Definition alphabet : string :=
  "ABCDEFGHIJKLMNOPQRSTUVWXYZabcdefghijklmnopqrstuvwxyz0123456789+/".

Definition PAD : byte := "="%byte.
Definition NL : byte := x0a.

(** [table_b2a_base64[n]] for a 6-bit [n]. *)
Definition sextet (n : Z) : byte :=
  match String.get (Z.to_nat (Z.land n 63)) alphabet with
  | Some c => byte_of_ascii c
  | None => PAD
  end.

(** The body of [binascii.b2a_base64]: three bytes give four characters, a
    last group of one or two bytes is padded with [=]. *)
Fixpoint b2a_groups (data : bytes) : bytes :=
  match data with
  | [] => []
  | [a] =>
      let a := Z_of_byte a in
      [sextet (Z.shiftr a 2); sextet (Z.shiftl (Z.land a 3) 4); PAD; PAD]
  | [a; b] =>
      let a := Z_of_byte a in
      let b := Z_of_byte b in
      [sextet (Z.shiftr a 2);
       sextet (Z.lor (Z.shiftl (Z.land a 3) 4) (Z.shiftr b 4));
       sextet (Z.shiftl (Z.land b 15) 2); PAD]
  | a :: b :: c :: rest =>
      let a := Z_of_byte a in
      let b := Z_of_byte b in
      let c := Z_of_byte c in
      sextet (Z.shiftr a 2)
      :: sextet (Z.lor (Z.shiftl (Z.land a 3) 4) (Z.shiftr b 4))
      :: sextet (Z.lor (Z.shiftl (Z.land b 15) 2) (Z.shiftr c 6))
      :: sextet (Z.land c 63)
      :: b2a_groups rest
  end.

(** [binascii.b2a_base64(data)]: one line, with its courtesy newline. *)
Definition b2a_base64 (data : bytes) : bytes := b2a_groups data ++ [NL].

(** [base64.b64encode]: the encoding with no line break at all. *)
Definition b64encode (data : bytes) : bytes := b2a_groups data.

Definition MAXLINESIZE : nat := 76.
Definition MAXBINSIZE : nat := (MAXLINESIZE / 4) * 3.

(** [base64.encodebytes]: lines of at most 57 input bytes, each encoded by
    [b2a_base64] and so each ended by a newline. *)
Definition encodebytes (s : bytes) : bytes :=
  List.concat (map b2a_base64 (chunks MAXBINSIZE s)).

(** [table_a2b_base64[c]]: the value of a data character, [None] for any
    other byte. *)
Definition a2b_value (c : byte) : option Z :=
  let n := Z_of_byte c in
  if (65 <=? n) && (n <=? 90) then Some (n - 65)
  else if (97 <=? n) && (n <=? 122) then Some (n - 71)
  else if (48 <=? n) && (n <=? 57) then Some (n + 4)
  else if n =? 43 then Some 62
  else if n =? 47 then Some 63
  else None.

(** The loop of [binascii.a2b_base64] without [strict_mode]: bytes outside
    the alphabet are skipped, a pad is honoured once the open quad has at
    least two data characters, and decoding stops at the pad that completes
    the quad.  At the end of the input an open quad is an error. *)
Fixpoint a2b_loop (s : bytes) (quad_pos leftchar pads : Z) (out : bytes)
  : result bytes :=
  match s with
  | [] => if quad_pos =? 0 then Ok (rev out) else Raise BinasciiError
  | ch :: rest =>
      if Byte.eqb ch PAD then
        if (2 <=? quad_pos) && (4 <=? quad_pos + (pads + 1))
        then Ok (rev out)
        else if 2 <=? quad_pos
             then a2b_loop rest quad_pos leftchar (pads + 1) out
             else a2b_loop rest quad_pos leftchar pads out
      else
        match a2b_value ch with
        | None => a2b_loop rest quad_pos leftchar pads out
        | Some v =>
            if quad_pos =? 0 then a2b_loop rest 1 v 0 out
            else if quad_pos =? 1 then
              a2b_loop rest 2 (Z.land v 15) 0
                (byte_of_Z (Z.lor (Z.shiftl leftchar 2) (Z.shiftr v 4)) :: out)
            else if quad_pos =? 2 then
              a2b_loop rest 3 (Z.land v 3) 0
                (byte_of_Z (Z.lor (Z.shiftl leftchar 4) (Z.shiftr v 2)) :: out)
            else
              a2b_loop rest 0 0 0
                (byte_of_Z (Z.lor (Z.shiftl leftchar 6) v) :: out)
        end
  end.

Definition a2b_base64 (s : bytes) : result bytes := a2b_loop s 0 0 0 [].

Definition is_ascii_byte (b : byte) : bool := Z_of_byte b <? 128.

(** [base64.b64decode(s)] on a [str]: the text is first encoded as ASCII
    ([ValueError] when it is not), then handed to [a2b_base64]. *)
Definition b64decode (s : string) : result bytes :=
  let raw := list_byte_of_string s in
  if forallb is_ascii_byte raw then a2b_base64 raw else Raise ValueError.

End Base64.

(* ================================================================== *)
(** * hashlib.sha256 and hmac.digest *)

Module SHA256.

Definition w32 (x : Z) : Z := x mod 4294967296.
Definition add32 (x y : Z) : Z := w32 (x + y).
Definition rotr (n x : Z) : Z :=
  Z.lor (Z.shiftr x n) (w32 (Z.shiftl x (32 - n))).
Definition xor3 (x y z : Z) : Z := Z.lxor (Z.lxor x y) z.

Definition Ch (x y z : Z) : Z :=
  Z.lxor (Z.land x y) (Z.land (w32 (Z.lnot x)) z).
Definition Maj (x y z : Z) : Z :=
  xor3 (Z.land x y) (Z.land x z) (Z.land y z).
Definition Sigma0 (x : Z) : Z := xor3 (rotr 2 x) (rotr 13 x) (rotr 22 x).
Definition Sigma1 (x : Z) : Z := xor3 (rotr 6 x) (rotr 11 x) (rotr 25 x).
Definition sigma0 (x : Z) : Z := xor3 (rotr 7 x) (rotr 18 x) (Z.shiftr x 3).
Definition sigma1 (x : Z) : Z := xor3 (rotr 17 x) (rotr 19 x) (Z.shiftr x 10).

(** The constants of FIPS 180-4 are the first 32 bits of the fractional
    parts of the cube roots (for [K]) and of the square roots (for [H0]) of
    the first primes. *)
Definition is_prime (n : Z) : bool :=
  forallb (fun d => negb (n mod d =? 0))
          (map Z.of_nat (seq 2 (Z.to_nat n - 2))).

Definition primes : list Z :=
  Eval vm_compute in filter is_prime (map Z.of_nat (seq 2 310)).

(** Integer cube root, one bit at a time from the top. *)
Fixpoint cbrt_bits (bits : nat) (n r : Z) : Z :=
  match bits with
  | O => r
  | S b =>
      let c := r + 2 ^ Z.of_nat b in
      cbrt_bits b n (if c * c * c <=? n then c else r)
  end.

Definition frac_cbrt (p : Z) : Z := w32 (cbrt_bits 40 (p * 2 ^ 96) 0).
Definition frac_sqrt (p : Z) : Z := w32 (Z.sqrt (p * 2 ^ 64)).

Definition K : list Z := Eval vm_compute in map frac_cbrt primes.

(** The eight working words. *)
Record regs : Type := Regs { ra : Z; rb : Z; rc : Z; rd : Z;
                             re : Z; rf : Z; rg : Z; rh : Z }.

Definition regs_of_list (l : list Z) : regs :=
  Regs (nth 0 l 0) (nth 1 l 0) (nth 2 l 0) (nth 3 l 0)
       (nth 4 l 0) (nth 5 l 0) (nth 6 l 0) (nth 7 l 0).

Definition H0 : regs :=
  Eval vm_compute in regs_of_list (map frac_sqrt (firstn 8 primes)).

Definition be32 (x : Z) : bytes :=
  [byte_of_Z (Z.shiftr x 24); byte_of_Z (Z.shiftr x 16);
   byte_of_Z (Z.shiftr x 8); byte_of_Z x].

Definition be_word (bs : bytes) : Z :=
  fold_left (fun acc b => Z.lor (Z.shiftl acc 8) (Z_of_byte b)) bs 0.

(** Padding: a [1] bit, zeros up to 56 modulo 64, the bit length on 64 bits. *)
Definition pad (msg : bytes) : bytes :=
  let l := Z.of_nat (List.length msg) in
  msg ++ [x80] ++ repeat x00 (Z.to_nat ((55 - l) mod 64))
      ++ be32 (Z.shiftr (8 * l) 32) ++ be32 (8 * l).

(** Message schedule, most recent word first. *)
Fixpoint schedule (n : nat) (w : list Z) : list Z :=
  match n with
  | O => w
  | S n' =>
      let wt := add32 (add32 (sigma1 (nth 1 w 0)) (nth 6 w 0))
                      (add32 (sigma0 (nth 14 w 0)) (nth 15 w 0)) in
      schedule n' (wt :: w)
  end.

Definition round (s : regs) (kw : Z * Z) : regs :=
  let t1 := add32 (add32 (add32 (rh s) (Sigma1 (re s)))
                         (add32 (Ch (re s) (rf s) (rg s)) (fst kw)))
                  (snd kw) in
  let t2 := add32 (Sigma0 (ra s)) (Maj (ra s) (rb s) (rc s)) in
  Regs (add32 t1 t2) (ra s) (rb s) (rc s) (add32 (rd s) t1) (re s) (rf s) (rg s).

Definition compress (h : regs) (block : bytes) : regs :=
  let w := rev (schedule 48 (rev (map be_word (chunks 4 block)))) in
  let s := fold_left round (combine K w) h in
  Regs (add32 (ra h) (ra s)) (add32 (rb h) (rb s))
       (add32 (rc h) (rc s)) (add32 (rd h) (rd s))
       (add32 (re h) (re s)) (add32 (rf h) (rf s))
       (add32 (rg h) (rg s)) (add32 (rh h) (rh s)).

Definition output (h : regs) : bytes :=
  be32 (ra h) ++ be32 (rb h) ++ be32 (rc h) ++ be32 (rd h)
  ++ be32 (re h) ++ be32 (rf h) ++ be32 (rg h) ++ be32 (rh h).

(** [hashlib.sha256(msg).digest()]. *)
Definition sha256 (msg : bytes) : bytes :=
  output (fold_left compress (chunks 64 (pad msg)) H0).

Definition block_size : nat := 64.

End SHA256.

Module HMAC.

Definition xor_byte (c : Z) (b : byte) : byte :=
  byte_of_Z (Z.lxor (Z_of_byte b) c).

(** [hmac.digest(key, msg, hashlib.sha256)]: a key longer than a block is
    hashed first, then padded with zeros to the block size. *)
Definition digest (key msg : bytes) : bytes :=
  let key := if Nat.ltb SHA256.block_size (List.length key)
             then SHA256.sha256 key else key in
  let key := key ++ repeat x00 (SHA256.block_size - List.length key) in
  let inner := SHA256.sha256 (map (xor_byte 0x36) key ++ msg) in
  SHA256.sha256 (map (xor_byte 0x5c) key ++ inner).

End HMAC.

(* ================================================================== *)
(** * Text helpers and urllib.parse *)

Local Open Scope string_scope.
Local Open Scope Z_scope.

Definition LF : string := String (ascii_of_nat 10) EmptyString.
Definition DQ : string := String (ascii_of_nat 34) EmptyString.

(** [s[:-1]]: the text without its last character; empty stays empty. *)
Fixpoint drop_last (s : string) : string :=
  match s with
  | EmptyString => EmptyString
  | String c EmptyString => EmptyString
  | String c rest => String c (drop_last rest)
  end.

Fixpoint str_mem (c : ascii) (s : string) : bool :=
  match s with
  | EmptyString => false
  | String d rest => Ascii.eqb c d || str_mem c rest
  end.

(** [needle in s] for two strings. *)
Fixpoint contains (needle s : string) : bool :=
  String.prefix needle s ||
  match s with
  | EmptyString => false
  | String _ rest => contains needle rest
  end.

(** [str(n)] for an integer. *)
Definition str_of_int (n : Z) : string := NilZero.string_of_int (Z.to_int n).

Module Urllib.

Definition is_upper (c : ascii) : bool :=
  (65 <=? Z_of_ascii c) && (Z_of_ascii c <=? 90).
Definition is_lower (c : ascii) : bool :=
  (97 <=? Z_of_ascii c) && (Z_of_ascii c <=? 122).
Definition is_digit (c : ascii) : bool :=
  (48 <=? Z_of_ascii c) && (Z_of_ascii c <=? 57).

(** [_ALWAYS_SAFE]: letters, digits and [_.-~]. *)
Definition always_safe (c : ascii) : bool :=
  is_upper c || is_lower c || is_digit c || str_mem c "_.-~".

Definition hex_digit (n : Z) : ascii :=
  match String.get (Z.to_nat n) "0123456789ABCDEF" with
  | Some c => c
  | None => "0"%char
  end.

(** One byte of the text: itself when safe, [%XX] in upper-case hex if not. *)
Definition quote_char (safe : string) (c : ascii) : string :=
  if always_safe c || str_mem c safe then String c EmptyString
  else String "%" (String (hex_digit (Z_of_ascii c / 16))
                     (String (hex_digit (Z_of_ascii c mod 16)) EmptyString)).

Fixpoint quote_from_bytes (safe : string) (bs : string) : string :=
  match bs with
  | EmptyString => EmptyString
  | String c rest => quote_char safe c ++ quote_from_bytes safe rest
  end.

(** [urllib.parse.quote(s)], whose default [safe] is ["/"]. *)
Definition quote (s : string) : string := quote_from_bytes "/" s.

Definition hex_value (c : ascii) : option Z :=
  let n := Z_of_ascii c in
  if is_digit c then Some (n - 48)
  else if (65 <=? n) && (n <=? 70) then Some (n - 55)
  else if (97 <=? n) && (n <=? 102) then Some (n - 87)
  else None.

(** Percent-decoding ([urllib.parse.unquote_to_bytes], read as text): a [%]
    followed by two hex digits is the byte they write, any other [%] stays. *)
Fixpoint unquote (s : string) : string :=
  match s with
  | EmptyString => EmptyString
  | String c t =>
      if Ascii.eqb c "%" then
        match t with
        | String h (String l r) =>
            match hex_value h, hex_value l with
            | Some a, Some b =>
                String (ascii_of_N (Z.to_N (16 * a + b))) (unquote r)
            | _, _ => String c (unquote t)
            end
        | _ => String c (unquote t)
        end
      else String c (unquote t)
  end.

End Urllib.

(** [str.lower] and [str.strip] on ASCII text: what the interpreter computes
    when the text has no character outside ASCII. *)
Definition ascii_lower_char (c : ascii) : ascii :=
  if Urllib.is_upper c then ascii_of_N (N_of_ascii c + 32) else c.

Fixpoint ascii_lower (s : string) : string :=
  match s with
  | EmptyString => EmptyString
  | String c rest => String (ascii_lower_char c) (ascii_lower rest)
  end.

(* ================================================================== *)
(** * The signer *)

Section Signer.

(** [str.lower] of the interpreter. *)
Variable lower : string -> string.

(** The text that is signed (line 63 of the source). *)
Definition payload_of (verb resource_type resource_link date : string) : string :=
  lower verb ++ LF ++ lower resource_type ++ LF ++ resource_link ++ LF
  ++ lower date ++ LF ++ LF.

Definition _get_auth_header
    (key verb resource_type resource_link date : string) : result string :=
  let payload := payload_of verb resource_type resource_link date in
  rbind (Base64.b64decode key) (fun key_bytes =>
  let digest := HMAC.digest key_bytes (encode_utf8 payload) in
  let signature := decode_utf8 (Base64.encodebytes digest) in
  Ok (Urllib.quote ("type=master&ver=1.0&sig=" ++ drop_last signature))).

End Signer.

(* ================================================================== *)
(** * The ssl module and the candidate versions *)

(** The attributes of the [ssl] module the program reads, and [HAS_TLSv1_3],
    which it does not read.  A [PROTOCOL_*] attribute is only read when its
    [HAS_*] flag is true. *)
Record ssl_module : Type := SslModule {
  HAS_SSLv2 : bool;
  HAS_SSLv3 : bool;
  HAS_TLSv1 : bool;
  HAS_TLSv1_1 : bool;
  HAS_TLSv1_2 : bool;
  HAS_TLSv1_3 : bool;
  PROTOCOL_SSLv2 : Z;
  PROTOCOL_SSLv3 : Z;
  PROTOCOL_TLSv1 : Z;
  PROTOCOL_TLSv1_1 : Z;
  PROTOCOL_TLSv1_2 : Z;
  OP_NO_SSLv2 : Z;
  OP_NO_SSLv3 : Z;
  OP_NO_TLSv1 : Z;
  OP_NO_TLSv1_1 : Z;
  OP_NO_TLSv1_2 : Z
}.

(** [X if c else None]. *)
Definition if_else_None (c : bool) (x : Z) : pyval :=
  if c then PyInt x else PyNone.

Definition _get_supported_ssl_versions (ssl : ssl_module) : list (string * pyval) :=
  let ssl_versions := [] in
  let ssl_versions := app ssl_versions
    [("SSL V2 (not supported by Azure Cosmos DB)",
      if_else_None (HAS_SSLv2 ssl) (PROTOCOL_SSLv2 ssl))] in
  let ssl_versions := app ssl_versions
    [("SSL V3 (not supported by Azure Cosmos DB)",
      if_else_None (HAS_SSLv3 ssl) (PROTOCOL_SSLv3 ssl))] in
  let ssl_versions := app ssl_versions
    [("TLS V1  ", if_else_None (HAS_TLSv1 ssl) (PROTOCOL_TLSv1 ssl))] in
  let ssl_versions := app ssl_versions
    [("TLS V1.1", if_else_None (HAS_TLSv1_1 ssl) (PROTOCOL_TLSv1_1 ssl))] in
  let ssl_versions := app ssl_versions
    [("TLS V1.2", if_else_None (HAS_TLSv1_2 ssl) (PROTOCOL_TLSv1_2 ssl))] in
  let ssl_versions := app ssl_versions
    [("TLS V1.3",
      if_else_None (HAS_TLSv1_2 ssl)
        (Z.land (Z.land (Z.land (Z.land (OP_NO_SSLv2 ssl) (OP_NO_SSLv3 ssl))
                                (OP_NO_TLSv1 ssl))
                        (OP_NO_TLSv1_1 ssl))
                (OP_NO_TLSv1_2 ssl)))] in
  ssl_versions.

(** The sixth entry of the list. *)
Definition tls13_entry (ssl : ssl_module) : string * pyval :=
  nth 5 (_get_supported_ssl_versions ssl) (EmptyString, PyNone).

(** The module as CPython 3 exposes it over OpenSSL 1.1.1 or 3: no SSL v2 or
    v3, every TLS version, each [OP_NO_*] option a bit of its own. *)
Definition cpython_ssl : ssl_module :=
  {| HAS_SSLv2 := false; HAS_SSLv3 := false; HAS_TLSv1 := true;
     HAS_TLSv1_1 := true; HAS_TLSv1_2 := true; HAS_TLSv1_3 := true;
     PROTOCOL_SSLv2 := 0; PROTOCOL_SSLv3 := 1; PROTOCOL_TLSv1 := 3;
     PROTOCOL_TLSv1_1 := 4; PROTOCOL_TLSv1_2 := 5;
     OP_NO_SSLv2 := 0; OP_NO_SSLv3 := 0x02000000; OP_NO_TLSv1 := 0x04000000;
     OP_NO_TLSv1_1 := 0x10000000; OP_NO_TLSv1_2 := 0x08000000 |}.

(* ================================================================== *)
(** * The world the prober acts on *)

Definition headers := list (string * string).

Fixpoint header (name : string) (h : headers) : option string :=
  match h with
  | [] => None
  | (k, v) :: rest => if String.eqb k name then Some v else header name rest
  end.

(** The arguments of one call of [_send_request]. *)
Record request : Type := Request {
  rq_uri : string;
  rq_ssl_version : pyval;
  rq_verb : string;
  rq_resource_type : string;
  rq_resource_link : string;
  rq_headers : headers;
  rq_body : option string
}.

(** What the program reads of a [requests.Response]. *)
Record response : Type := Response {
  status_code : Z;
  text : string
}.

(** [Response.ok]: [raise_for_status] raises for 400 to 599. *)
Definition ok (r : response) : bool :=
  negb ((400 <=? status_code r) && (status_code r <? 600)).

(** Lines printed, requests handed to the network and clock readings so far. *)
Record world : Type := World {
  stdout : list string;
  wire : list request;
  clock_reads : nat
}.

Definition M (A : Type) : Type := world -> result A * world.

Definition ret {A} (a : A) : M A := fun w => (Ok a, w).

Definition bind {A B} (m : M A) (k : A -> M B) : M B :=
  fun w => match m w with
           | (Ok a, w') => k a w'
           | (Raise e, w') => (Raise e, w')
           end.

Definition lift {A} (r : result A) : M A := fun w => (r, w).

Declare Scope prober_scope.
Delimit Scope prober_scope with prober.
Notation "x <- m ;; k" := (bind m (fun x => k))
  (at level 61, m at next level, right associativity) : prober_scope.
Notation "m ;; k" := (bind m (fun _ => k))
  (at level 61, right associativity) : prober_scope.

(** [print(a, b, ...)]: the arguments separated by one space. *)
Definition print (args : list string) : M unit :=
  fun w => (Ok tt, {| stdout := (stdout w ++ [String.concat " " args])%list;
                      wire := wire w; clock_reads := clock_reads w |}).

(** Monadic [for x in l: f x]; an exception ends the loop. *)
Fixpoint for_each {A} (l : list A) (f : A -> M unit) : M unit :=
  match l with
  | [] => ret tt
  | x :: rest => bind (f x) (fun _ => for_each rest f)
  end.

Record arguments : Type := Arguments_ {
  endpoint : string;
  authorization_key : string;
  database_name : option string;
  collection_name : option string
}.

Definition opt_str (o : option string) : string :=
  match o with
  | Some s => s
  | None => "None"
  end.

(** [args.database_name and args.collection_name], as a condition. *)
Definition both_named (args : arguments) : bool :=
  str_truthy (database_name args) && str_truthy (collection_name args).

(** The body of the query operation. *)
Definition query_body : string :=
  "{" ++ DQ ++ "query" ++ DQ ++ ":" ++ DQ ++ "SELECT 1" ++ DQ ++ "}".

Section Prober.

Open Scope prober_scope.

(** [str.lower] and [str.strip] of the interpreter. *)
Variable lower : string -> string.
Variable strip : string -> string.
(** The attributes of the [ssl] module. *)
Variable ssl : ssl_module.
(** [clock n]: the text
    [datetime.datetime.utcnow().strftime("%a, %d %b %Y %H:%M:%S GMT")] at the
    [n]-th reading of the clock. *)
Variable clock : nat -> string.
(** [network n rq]: what the body of [_send_request] does on its [n]-th call:
    the URL is [urljoin(urljoin(uri, resource_link + "/"), resource_type)],
    the session is mounted on an [SSLAdapter] pinned to [ssl_version], and
    [session.request] returns a response or raises. *)
Variable network : nat -> request -> result response.

Definition utcnow_strftime : M string :=
  fun w => (Ok (clock (clock_reads w)),
            {| stdout := stdout w; wire := wire w;
               clock_reads := S (clock_reads w) |}).

Definition _send_request (uri : string) (ssl_version : pyval)
    (verb resource_type resource_link : string) (hs : headers)
    (body : option string) : M response :=
  fun w =>
    let rq := Request uri ssl_version verb resource_type resource_link hs body in
    (network (List.length (wire w)) rq,
     {| stdout := stdout w; wire := (wire w ++ [rq])%list;
        clock_reads := clock_reads w |}).

Definition list_databases (uri key : string) (ssl_version : pyval) : M response :=
  let verb := "get" in
  let resource_type := "dbs" in
  let resource_link := EmptyString in
  date <- utcnow_strftime ;;
  let date_str := lower date in
  auth <- lift (_get_auth_header lower key verb resource_type resource_link date_str) ;;
  let hs := [ ("authorization", auth);
              ("x-ms-version", "2017-02-22");
              ("x-ms-date", date_str);
              ("x-ms-max-item-count", "1");
              ("Cache-Control", "no-cache") ] in
  _send_request uri ssl_version verb resource_type resource_link hs None.

Definition basic_query (uri key : string) (ssl_version : pyval)
    (database_name container_name : string) : M response :=
  let verb := "post" in
  let resource_type := "docs" in
  let resource_link := "dbs/" ++ database_name ++ "/colls/" ++ container_name in
  date <- utcnow_strftime ;;
  let date_str := lower date in
  auth <- lift (_get_auth_header lower key verb resource_type resource_link date_str) ;;
  let hs := [ ("content-type", "application/query+json");
              ("authorization", auth);
              ("x-ms-version", "2017-02-22");
              ("x-ms-date", date_str);
              ("x-ms-documentdb-isquery", "True");
              ("Cache-Control", "no-cache") ] in
  let body := query_body in
  _send_request uri ssl_version verb resource_type resource_link hs (Some body).

(** Lines 235 to 240: what is printed for a response. *)
Definition report (ssl_version_name query_type : string) (r : response) : M unit :=
  if ok r then print [ssl_version_name; query_type; ": Supported"]
  else if contains "TLS" (text r)
       then print [ssl_version_name; query_type; ": Not supported"]
       else print ["Connection error:"; str_of_int (status_code r); text r].

(** The body of the loop of [main], lines 217 to 240. *)
Definition probe_version (args : arguments) (v : string * pyval) : M unit :=
  let (ssl_version_name, ssl_version) := v in
  if negb (truthy ssl_version) then
    print [ssl_version_name; ": Not supported by client"]
  else
    if both_named args then
      let query_type := "Basic Query" in
      response <- basic_query (endpoint args) (authorization_key args) ssl_version
                    (opt_str (database_name args)) (opt_str (collection_name args)) ;;
      report ssl_version_name query_type response
    else
      let query_type := "List Databases" in
      response <- list_databases (endpoint args) (authorization_key args) ssl_version ;;
      report ssl_version_name query_type response.

Definition main (args : arguments) : M unit :=
  let args := {| endpoint := strip (endpoint args);
                 authorization_key := authorization_key args;
                 database_name := database_name args;
                 collection_name := collection_name args |} in
  let args := {| endpoint := endpoint args;
                 authorization_key := strip (authorization_key args);
                 database_name := database_name args;
                 collection_name := collection_name args |} in
  print ["Endpoint: [" ++ endpoint args ++ "]"] ;;
  args <- (if both_named args then
             let args := {| endpoint := endpoint args;
                            authorization_key := authorization_key args;
                            database_name := option_map strip (database_name args);
                            collection_name := collection_name args |} in
             let args := {| endpoint := endpoint args;
                            authorization_key := authorization_key args;
                            database_name := database_name args;
                            collection_name := option_map strip (collection_name args) |} in
             print ["Database name: [" ++ opt_str (database_name args)
                    ++ "], Collection name: [" ++ opt_str (collection_name args) ++ "]"] ;;
             ret args
           else ret args) ;;
  let ssl_versions := _get_supported_ssl_versions ssl in
  print [LF ++ "SSL/TLS Version Support"] ;;
  for_each ssl_versions (probe_version args).

(** The arguments the loop runs with (lines 199 to 205). *)
Definition stripped (args : arguments) : arguments :=
  {| endpoint := strip (endpoint args);
     authorization_key := strip (authorization_key args);
     database_name := if both_named args then option_map strip (database_name args)
                      else database_name args;
     collection_name := if both_named args then option_map strip (collection_name args)
                        else collection_name args |}.

(** The lines printed before the loop (lines 201 to 214). *)
Definition banner (args : arguments) : list string :=
  ["Endpoint: [" ++ strip (endpoint args) ++ "]"]
  ++ (if both_named args
      then ["Database name: [" ++ opt_str (option_map strip (database_name args))
            ++ "], Collection name: ["
            ++ opt_str (option_map strip (collection_name args)) ++ "]"]
      else [])
  ++ [LF ++ "SSL/TLS Version Support"].

End Prober.

(** [str.strip] on ASCII text: the white space of [str.isspace] below 128. *)
Definition is_space (c : ascii) : bool :=
  let n := Z_of_ascii c in
  ((9 <=? n) && (n <=? 13)) || ((28 <=? n) && (n <=? 32)).

Fixpoint lstrip (s : string) : string :=
  match s with
  | EmptyString => EmptyString
  | String c rest => if is_space c then lstrip rest else s
  end.

Fixpoint rstrip (s : string) : string :=
  match s with
  | EmptyString => EmptyString
  | String c rest =>
      match rstrip rest with
      | EmptyString => if is_space c then EmptyString else String c EmptyString
      | r => String c r
      end
  end.

Definition ascii_strip (s : string) : string := rstrip (lstrip s).

(* ================================================================== *)
(** * The vocabulary of the specification *)

(** The outcome of a probe, as the data model of the specification has it. *)
Inductive ProbeOutcome : Type :=
| Supported
| NotSupported
| ClientUnsupported
| ConnectionError (code : option Z) (detail : string).

(** The line the program prints for an outcome (lines 218, 236, 238, 240). *)
Definition outcome_line (ssl_version_name query_type : string) (o : ProbeOutcome)
  : option string :=
  match o with
  | Supported =>
      Some (ssl_version_name ++ " " ++ query_type ++ " " ++ ": Supported")
  | NotSupported =>
      Some (ssl_version_name ++ " " ++ query_type ++ " " ++ ": Not supported")
  | ClientUnsupported =>
      Some (ssl_version_name ++ " " ++ ": Not supported by client")
  | ConnectionError (Some code) detail =>
      Some ("Connection error:" ++ " " ++ str_of_int code ++ " " ++ detail)
  | ConnectionError None _ => None
  end.

(** [s] has [needle] as a substring. *)
Definition has_substring (needle s : string) : Prop :=
  exists pre post, s = pre ++ needle ++ post.

(** Valid base64 in the sense of RFC 4648: groups of four characters of the
    alphabet, the last group possibly ended by one or two [=]. *)
Definition is_b64_data (c : ascii) : bool :=
  Urllib.is_upper c || Urllib.is_lower c || Urllib.is_digit c
  || Ascii.eqb c "+" || Ascii.eqb c "/".

Definition is_b64_pad (c : ascii) : bool := Ascii.eqb c "=".

Fixpoint valid_base64 (s : string) : bool :=
  match s with
  | EmptyString => true
  | String a (String b (String c (String d rest))) =>
      is_b64_data a && is_b64_data b &&
      match rest with
      | EmptyString =>
          (is_b64_data c && (is_b64_data d || is_b64_pad d))
          || (is_b64_pad c && is_b64_pad d)
      | _ => is_b64_data c && is_b64_data d && valid_base64 rest
      end
  | _ => false
  end.

(** The characters a base64 text is made of. *)
Definition is_b64_char (c : ascii) : bool := is_b64_data c || is_b64_pad c.

Fixpoint str_forall (p : ascii -> bool) (s : string) : bool :=
  match s with
  | EmptyString => true
  | String c rest => p c && str_forall p rest
  end.

(** The request of the list-databases operation. *)
Definition is_list_databases (rq : request) : Prop :=
  rq_verb rq = "get" /\ rq_resource_type rq = "dbs"
  /\ rq_resource_link rq = EmptyString /\ rq_body rq = None.

(** The request of the query operation. *)
Definition is_query (db coll : string) (rq : request) : Prop :=
  rq_verb rq = "post" /\ rq_resource_type rq = "docs"
  /\ rq_resource_link rq = "dbs/" ++ db ++ "/colls/" ++ coll
  /\ rq_body rq = Some query_body.

(** The world after some more lines were printed. *)
Definition printed (w : world) (lines : list string) : world :=
  {| stdout := (stdout w ++ lines)%list; wire := wire w;
     clock_reads := clock_reads w |}.

(** [m] hands to the network only requests that satisfy [P], and keeps
    those already sent. *)
Definition sends {A} (P : request -> Prop) (m : M A) : Prop :=
  forall w, exists sent,
    wire (snd (m w)) = (wire w ++ sent)%list /\ Forall P sent.

(* ================================================================== *)
(** * Sample environments *)

Definition world0 : world := World [] [] 0.

Definition clock_1994 : nat -> string :=
  fun _ => "Tue, 01 Nov 1994 08:12:31 GMT".

(** Every exchange is answered by the same HTTP 400. *)
Definition network_http_400 : nat -> request -> result response :=
  fun _ _ => Ok (Response 400 "TLS query not supported").

(** No handshake completes: [session.request] raises. *)
Definition network_down : nat -> request -> result response :=
  fun _ _ => Raise (RequestException "SSLError").

Definition args_account : arguments :=
  {| endpoint := "https://acct.documents.azure.com:443/";
     authorization_key := "QUJD";
     database_name := None;
     collection_name := None |}.

(* ================================================================== *)
(** * Further vocabulary *)

(** The 256 bytes, to check a property of one or two bytes on all of them. *)
Definition all_bytes : list byte := map byte_of_Z (map Z.of_nat (seq 0 256)).

Definition for_all_bytes (P : byte -> bool) : bool := forallb P all_bytes.

Definition for_all_bytes2 (P : byte -> byte -> bool) : bool :=
  forallb (fun a => forallb (P a) all_bytes) all_bytes.

(** The four characters [binascii.b2a_base64] writes for three bytes. *)
Definition enc1 (a : byte) : byte := Base64.sextet (Z.shiftr (Z_of_byte a) 2).
Definition enc2 (a b : byte) : byte :=
  Base64.sextet (Z.lor (Z.shiftl (Z.land (Z_of_byte a) 3) 4)
                       (Z.shiftr (Z_of_byte b) 4)).
Definition enc3 (b c : byte) : byte :=
  Base64.sextet (Z.lor (Z.shiftl (Z.land (Z_of_byte b) 15) 2)
                       (Z.shiftr (Z_of_byte c) 6)).
Definition enc4 (c : byte) : byte := Base64.sextet (Z.land (Z_of_byte c) 63).

(** The value the decoder reads back from a character of the alphabet. *)
Definition dec (ch : byte) : Z :=
  match Base64.a2b_value ch with
  | Some v => v
  | None => 0
  end.

(** A character the decoder of the key skips: ASCII, outside the base64
    alphabet, and not the pad. *)
Definition is_stray (c : ascii) : bool :=
  (Z_of_ascii c <? 128) && negb (is_b64_char c).

(** The characters [urllib.parse.quote] can write: the safe ones and [%]. *)
Definition is_quoted_char (c : ascii) : bool :=
  Urllib.always_safe c || Ascii.eqb c "/" || Ascii.eqb c "%".

(** The quoted form of ["type=master&ver=1.0&sig="] and of the pad. *)
Definition quoted_prefix : string := "type%3Dmaster%26ver%3D1.0%26sig%3D".
Definition quoted_pad : string := "%3D".

(** A text without newline. *)
Definition no_newline (s : string) : bool := negb (str_mem (ascii_of_nat 10) s).

(** The five entries that carry a protocol constant: their [HAS_*]
    attribute and their constant. *)
Definition legacy_versions (ssl : ssl_module) : list (bool * Z) :=
  [ (HAS_SSLv2 ssl, PROTOCOL_SSLv2 ssl);
    (HAS_SSLv3 ssl, PROTOCOL_SSLv3 ssl);
    (HAS_TLSv1 ssl, PROTOCOL_TLSv1 ssl);
    (HAS_TLSv1_1 ssl, PROTOCOL_TLSv1_1 ssl);
    (HAS_TLSv1_2 ssl, PROTOCOL_TLSv1_2 ssl) ].

(** Those of them that are available and whose constant is not [0]. *)
Definition usable_versions (ssl : ssl_module) : list pyval :=
  map (fun hp => PyInt (snd hp))
      (filter (fun hp => fst hp && negb (snd hp =? 0)) (legacy_versions ssl)).

(** A request that a server can check: it goes to [uri], and its token is
    the signature, under [key], of its own verb, resource type, resource
    link and date header; it carries the fixed version and cache headers. *)
Definition is_signed_request (lower : string -> string) (uri key : string)
    (rq : request) : Prop :=
  rq_uri rq = uri
  /\ header "x-ms-version" (rq_headers rq) = Some "2017-02-22"
  /\ header "Cache-Control" (rq_headers rq) = Some "no-cache"
  /\ exists date token,
       header "x-ms-date" (rq_headers rq) = Some date
       /\ header "authorization" (rq_headers rq) = Some token
       /\ _get_auth_header lower key (rq_verb rq) (rq_resource_type rq)
            (rq_resource_link rq) date = Ok token.

(* ================================================================== *)
(** * Facts about the library functions *)

Section Library.

Import Base64.

(** The models against published values: FIPS 180-4 ("abc"), RFC 4231
    (test case 2), RFC 4648 ("foobar") and a quoted text. *)
Example sha256_abc :
  map Z_of_byte (SHA256.sha256 (encode_utf8 "abc"))
  = [ 0xba; 0x78; 0x16; 0xbf; 0x8f; 0x01; 0xcf; 0xea;
      0x41; 0x41; 0x40; 0xde; 0x5d; 0xae; 0x22; 0x23;
      0xb0; 0x03; 0x61; 0xa3; 0x96; 0x17; 0x7a; 0x9c;
      0xb4; 0x10; 0xff; 0x61; 0xf2; 0x00; 0x15; 0xad ].
Proof. vm_compute. reflexivity. Qed.

Example hmac_sha256_jefe :
  map Z_of_byte
      (HMAC.digest (encode_utf8 "Jefe") (encode_utf8 "what do ya want for nothing?"))
  = [ 0x5b; 0xdc; 0xc1; 0x46; 0xbf; 0x60; 0x75; 0x4e;
      0x6a; 0x04; 0x24; 0x26; 0x08; 0x95; 0x75; 0xc7;
      0x5a; 0x00; 0x3f; 0x08; 0x9d; 0x27; 0x39; 0x83;
      0x9d; 0xec; 0x58; 0xb9; 0x64; 0xec; 0x38; 0x43 ].
Proof. vm_compute. reflexivity. Qed.

Example b64encode_foobar :
  decode_utf8 (b64encode (encode_utf8 "foobar")) = "Zm9vYmFy"
  /\ decode_utf8 (b64encode (encode_utf8 "fooba")) = "Zm9vYmE="
  /\ decode_utf8 (b64encode (encode_utf8 "foob")) = "Zm9vYg=="
  /\ b64decode "Zm9vYg==" = Ok (encode_utf8 "foob").
Proof. repeat split. Qed.

Example quote_token_characters :
  Urllib.quote "type=master&ver=1.0&sig=a+b/c=" = "type%3Dmaster%26ver%3D1.0%26sig%3Da%2Bb/c%3D".
Proof. reflexivity. Qed.

(** [Response.ok] is false exactly for the status codes 400 to 599. *)
Lemma ok_iff (r : response) :
  ok r = true <-> ~ (400 <= status_code r < 600).
Proof. unfold ok. rewrite negb_true_iff, andb_false_iff. lia. Qed.

Lemma Ok_inj {A} (a b : A) : Ok a = Ok b -> a = b.
Proof. intros H. now injection H. Qed.

Lemma Some_inj {A} (a b : A) : Some a = Some b -> a = b.
Proof. intros H. now injection H. Qed.

Lemma chunks_fuel_nil {A} (fuel n : nat) : @chunks_fuel A fuel n [] = [].
Proof. destruct fuel; reflexivity. Qed.

(** The fuel of [chunks] is enough: the pieces put together are the input. *)
Lemma chunks_fuel_concat {A} (n : nat) :
  (0 < n)%nat ->
  forall fuel (l : list A), (List.length l <= fuel)%nat ->
    List.concat (chunks_fuel fuel n l) = l.
Proof.
  intros Hn. induction fuel as [|fuel IH]; intros l Hlen.
  - destruct l; [reflexivity | cbn in Hlen; lia].
  - destruct l as [|x l]; [reflexivity|].
    cbn [chunks_fuel List.concat]. rewrite IH.
    + apply firstn_skipn.
    + rewrite length_skipn. cbn [List.length] in *. lia.
Qed.

Lemma chunks_concat {A} (n : nat) (l : list A) :
  (0 < n)%nat -> List.concat (chunks n l) = l.
Proof. intros Hn. now apply chunks_fuel_concat. Qed.

(** A non-empty input of at most [n] elements is one piece. *)
Lemma chunks_single {A} (n : nat) (l : list A) :
  l <> [] -> (List.length l <= n)%nat -> chunks n l = [l].
Proof.
  intros Hne Hlen. unfold chunks.
  destruct l as [|x l]; [congruence|].
  cbn [List.length chunks_fuel].
  rewrite firstn_all2 by exact Hlen.
  rewrite skipn_all2 by exact Hlen.
  now rewrite chunks_fuel_nil.
Qed.

(** On at most 57 bytes [encodebytes] writes one line: the plain encoding
    and the newline that ends it. *)
Lemma encodebytes_one_line (d : bytes) :
  d <> [] -> (List.length d <= 57)%nat ->
  encodebytes d = (b64encode d ++ [NL])%list.
Proof.
  intros Hne Hlen. unfold encodebytes.
  rewrite (chunks_single MAXBINSIZE d Hne Hlen).
  cbn [map List.concat]. unfold b2a_base64, b64encode.
  now rewrite app_nil_r.
Qed.

(** Beyond 57 bytes [encodebytes] does break the line: dropping the last
    character alone would leave a newline inside. *)
Example encodebytes_wraps_58 :
  In NL (removelast (encodebytes (repeat x00 58))).
Proof. vm_compute. tauto. Qed.

Lemma land_63_range (n : Z) : 0 <= Z.land n 63 < 64.
Proof.
  change 63 with (Z.ones 6). rewrite Z.land_ones by lia.
  apply Z.mod_pos_bound. reflexivity.
Qed.

(** Every entry of the encoding table is a character of the alphabet. *)
Lemma sextet_is_data (n : Z) : is_b64_data (ascii_of_byte (sextet n)) = true.
Proof.
  unfold sextet. pose proof (land_63_range n) as Hr.
  assert (Hm : (Z.to_nat (Z.land n 63) < 64)%nat) by lia.
  clear Hr. generalize dependent (Z.to_nat (Z.land n 63)). intros m Hm.
  do 64 (destruct m as [|m]; [reflexivity|]). lia.
Qed.

Lemma is_b64_data_char (c : ascii) : is_b64_data c = true -> is_b64_char c = true.
Proof. unfold is_b64_char. intros ->. reflexivity. Qed.

Lemma is_b64_data_not_newline (b : byte) :
  is_b64_char (ascii_of_byte b) = true -> b <> NL.
Proof. intros H ->. discriminate H. Qed.

(** The encoding is made of base64 characters only. *)
Lemma b2a_groups_chars_upto (n : nat) :
  forall d, (List.length d <= n)%nat ->
    Forall (fun b => is_b64_char (ascii_of_byte b) = true) (b2a_groups d).
Proof.
  induction n as [|n IH]; intros d Hlen.
  - destruct d; [constructor | simpl in Hlen; lia].
  - destruct d as [|a [|b [|c rest]]]; cbn [b2a_groups].
    + constructor.
    + repeat constructor; apply is_b64_data_char, sextet_is_data.
    + repeat constructor; apply is_b64_data_char, sextet_is_data.
    + repeat (constructor; [apply is_b64_data_char, sextet_is_data|]).
      apply IH. simpl in Hlen. lia.
Qed.

Lemma b2a_groups_chars (d : bytes) :
  Forall (fun b => is_b64_char (ascii_of_byte b) = true) (b2a_groups d).
Proof. exact (b2a_groups_chars_upto (List.length d) d (Nat.le_refl _)). Qed.

Lemma b64encode_no_newline (d : bytes) : ~ In NL (b64encode d).
Proof.
  intros Hin. pose proof (b2a_groups_chars d) as Hall.
  rewrite Forall_forall in Hall.
  exact (is_b64_data_not_newline NL (Hall NL Hin) eq_refl).
Qed.

Lemma str_forall_of_bytes (p : ascii -> bool) (l : bytes) :
  Forall (fun b => p (ascii_of_byte b) = true) l ->
  str_forall p (string_of_list_byte l) = true.
Proof.
  unfold string_of_list_byte.
  induction 1 as [|b l Hb _ IH]; [reflexivity|].
  cbn [map string_of_list_ascii str_forall]. now rewrite Hb, IH.
Qed.

Lemma string_of_list_byte_app (a b : bytes) :
  string_of_list_byte (a ++ b) = string_of_list_byte a ++ string_of_list_byte b.
Proof.
  unfold string_of_list_byte.
  induction a as [|x a IH]; [reflexivity|].
  cbn [app map string_of_list_ascii append]. now rewrite IH.
Qed.

Lemma drop_last_snoc (s : string) (c : ascii) :
  drop_last (s ++ String c EmptyString) = s.
Proof.
  induction s as [|x s IH]; [reflexivity|].
  cbn [append drop_last]. rewrite IH.
  destruct s; reflexivity.
Qed.

Lemma sha256_length (msg : bytes) : List.length (SHA256.sha256 msg) = 32%nat.
Proof. reflexivity. Qed.

Lemma hmac_digest_length (key msg : bytes) :
  List.length (HMAC.digest key msg) = 32%nat.
Proof. unfold HMAC.digest. apply sha256_length. Qed.

(** A digest of 32 bytes is written on 44 characters. *)
Lemma b64encode_length_32 (d : bytes) :
  List.length d = 32%nat -> List.length (b64encode d) = 44%nat.
Proof.
  intros H.
  do 32 (destruct d as [|? d]; [discriminate H|]).
  destruct d; [reflexivity | discriminate H].
Qed.

Lemma string_length_of_bytes (l : bytes) :
  String.length (string_of_list_byte l) = List.length l.
Proof.
  unfold string_of_list_byte.
  induction l as [|b l IH]; [reflexivity|].
  cbn [map string_of_list_ascii String.length List.length]. now rewrite IH.
Qed.

(** Percent-decoding undoes the quoting of one character. *)
Lemma unquote_quote_char (c : ascii) (rest : string) :
  Urllib.unquote (Urllib.quote_char "/" c ++ rest) = String c (Urllib.unquote rest).
Proof. destruct c as [[] [] [] [] [] [] [] []]; reflexivity. Qed.

Lemma unquote_quote (s : string) : Urllib.unquote (Urllib.quote s) = s.
Proof.
  unfold Urllib.quote.
  induction s as [|c s IH]; [reflexivity|].
  cbn [Urllib.quote_from_bytes]. rewrite unquote_quote_char. now rewrite IH.
Qed.

(** The decoding loop raises nothing but [binascii.Error]. *)
Lemma a2b_loop_raises (s : bytes) :
  forall quad_pos leftchar pads out e,
    a2b_loop s quad_pos leftchar pads out = Raise e -> e = BinasciiError.
Proof.
  induction s as [|ch s IH]; intros q l p o e; cbn [a2b_loop].
  - destruct (q =? 0); congruence.
  - destruct (Byte.eqb ch PAD).
    + destruct ((2 <=? q) && (4 <=? q + (p + 1))); [congruence|].
      destruct (2 <=? q); apply IH.
    + destruct (a2b_value ch) as [v|]; [|apply IH].
      destruct (q =? 0); [apply IH|].
      destruct (q =? 1); [apply IH|].
      destruct (q =? 2); apply IH.
Qed.

Lemma b64decode_raises (key : string) (e : exn) :
  b64decode key = Raise e -> e = ValueError \/ e = BinasciiError.
Proof.
  unfold b64decode, a2b_base64.
  destruct (forallb is_ascii_byte (list_byte_of_string key)).
  - intros H. right. exact (a2b_loop_raises _ _ _ _ _ _ H).
  - intros H. left. congruence.
Qed.

Lemma a2b_value_not_pad (ch : byte) :
  a2b_value ch <> None -> Byte.eqb ch PAD = false.
Proof.
  intros Hv. destruct (Byte.eqb ch PAD) eqn:E; [|reflexivity].
  apply Byte.byte_dec_bl in E. subst ch. now contradiction Hv.
Qed.

(** Data characters alone: the loop fails exactly when they stop inside a
    quad. *)
Lemma a2b_loop_open_quad (s : bytes) :
  forall quad_pos leftchar pads out,
    Forall (fun ch => a2b_value ch <> None) s ->
    0 <= quad_pos < 4 ->
    (quad_pos + Z.of_nat (List.length s)) mod 4 <> 0 ->
    a2b_loop s quad_pos leftchar pads out = Raise BinasciiError.
Proof.
  induction s as [|ch s IH]; intros q l p o Hall Hq Hmod; cbn [a2b_loop].
  - cbn [List.length Z.of_nat] in Hmod. rewrite Z.add_0_r in Hmod.
    rewrite Z.mod_small in Hmod by lia.
    destruct (Z.eqb_spec q 0); [contradiction | reflexivity].
  - inversion Hall as [|? ? Hch Hrest]; subst.
    rewrite (a2b_value_not_pad ch Hch).
    destruct (a2b_value ch) as [v|]; [|contradiction].
    cbn [List.length] in Hmod. rewrite Nat2Z.inj_succ in Hmod.
    destruct (Z.eqb_spec q 0) as [->|H0].
    { apply IH; [assumption | lia |].
      now replace (1 + Z.of_nat (List.length s))
        with (0 + Z.succ (Z.of_nat (List.length s))) by lia. }
    destruct (Z.eqb_spec q 1) as [->|H1].
    { apply IH; [assumption | lia |].
      now replace (2 + Z.of_nat (List.length s))
        with (1 + Z.succ (Z.of_nat (List.length s))) by lia. }
    destruct (Z.eqb_spec q 2) as [->|H2].
    { apply IH; [assumption | lia |].
      now replace (3 + Z.of_nat (List.length s))
        with (2 + Z.succ (Z.of_nat (List.length s))) by lia. }
    assert (q = 3) by lia. subst q.
    apply IH; [assumption | lia |].
    replace (3 + Z.succ (Z.of_nat (List.length s)))
      with (0 + Z.of_nat (List.length s) + 1 * 4) in Hmod by lia.
    now rewrite Z.mod_add in Hmod by lia.
Qed.

(** A key of ASCII data characters whose number is not a multiple of four
    is rejected. *)
Lemma b64decode_open_quad (key : string) :
  Forall (fun ch => a2b_value ch <> None) (list_byte_of_string key) ->
  Z.of_nat (String.length key) mod 4 <> 0 ->
  b64decode key = Raise BinasciiError.
Proof.
  intros Hall Hmod. unfold b64decode, a2b_base64.
  assert (Hascii : forallb is_ascii_byte (list_byte_of_string key) = true).
  { apply forallb_forall. rewrite Forall_forall in Hall.
    intros ch Hin. specialize (Hall ch Hin).
    destruct ch; solve [reflexivity | exfalso; apply Hall; reflexivity]. }
  rewrite Hascii. apply a2b_loop_open_quad; [assumption | lia |].
  rewrite Z.add_0_l.
  rewrite <- (string_of_list_byte_of_string key) in Hmod.
  now rewrite string_length_of_bytes in Hmod.
Qed.

(** A character of the alphabet is an ASCII byte with a value in the
    decoding table, and is not the pad. *)
Lemma b64_data_byte (c : ascii) :
  is_b64_data c = true ->
  exists v, a2b_value (byte_of_ascii c) = Some v
            /\ Byte.eqb (byte_of_ascii c) PAD = false
            /\ is_ascii_byte (byte_of_ascii c) = true.
Proof.
  destruct c as [[] [] [] [] [] [] [] []]; vm_compute; intros H;
    try discriminate H; eexists; repeat split.
Qed.

Lemma b64_pad_byte (c : ascii) :
  is_b64_pad c = true -> byte_of_ascii c = PAD.
Proof. unfold is_b64_pad. intros H. apply Ascii.eqb_eq in H. now subst c. Qed.

Ltac data_step H :=
  let v := fresh "v" in
  let Hv := fresh "Hv" in
  let Hp := fresh "Hp" in
  let Ha := fresh "Ha" in
  destruct (b64_data_byte _ H) as [v [Hv [Hp Ha]]];
  cbn [a2b_loop forallb]; rewrite ?Hv, ?Hp, ?Ha; cbn [Z.eqb andb].

(** A key that is valid base64 is ASCII and decodes. *)
Lemma valid_base64_decodes_upto (n : nat) :
  forall key, (String.length key <= n)%nat -> valid_base64 key = true ->
    forallb is_ascii_byte (list_byte_of_string key) = true
    /\ forall leftchar pads out, exists key_bytes,
         a2b_loop (list_byte_of_string key) 0 leftchar pads out = Ok key_bytes.
Proof.
  induction n as [|n IH]; intros key Hlen Hvalid.
  - destruct key; [|cbn in Hlen; lia].
    split; [reflexivity | intros; eexists; reflexivity].
  - destruct key as [|a [|b [|c [|d rest]]]]; try discriminate Hvalid.
    + split; [reflexivity | intros; eexists; reflexivity].
    + cbn [valid_base64] in Hvalid.
      apply andb_true_iff in Hvalid. destruct Hvalid as [Hab Hrest].
      apply andb_true_iff in Hab. destruct Hab as [Da Db].
      unfold list_byte_of_string in *.
      cbn [list_ascii_of_string map].
      destruct rest as [|x rest'].
      * apply orb_true_iff in Hrest. destruct Hrest as [Hcd|Hcd];
          apply andb_true_iff in Hcd; destruct Hcd as [Hc Hd].
        -- apply orb_true_iff in Hd. destruct Hd as [Dd|Pd].
           ++ split.
              ** data_step Da. data_step Db. data_step Hc. data_step Dd.
                 reflexivity.
              ** intros. data_step Da. data_step Db. data_step Hc. data_step Dd.
                 eexists; reflexivity.
           ++ rewrite (b64_pad_byte d Pd). split.
              ** data_step Da. data_step Db. data_step Hc. reflexivity.
              ** intros. data_step Da. data_step Db. data_step Hc.
                 cbn. eexists; reflexivity.
        -- rewrite (b64_pad_byte c Hc), (b64_pad_byte d Hd). split.
           ++ data_step Da. data_step Db. reflexivity.
           ++ intros. data_step Da. data_step Db.
              cbn. eexists; reflexivity.
      * apply andb_true_iff in Hrest. destruct Hrest as [Hcd Hrest].
        apply andb_true_iff in Hcd. destruct Hcd as [Dc Dd].
        assert (Hl : (String.length (String x rest') <= n)%nat)
          by (cbn [String.length] in *; lia).
        destruct (IH (String x rest') Hl Hrest) as [IHa IHd].
        split.
        -- data_step Da. data_step Db. data_step Dc. data_step Dd. exact IHa.
        -- intros. data_step Da. data_step Db. data_step Dc. data_step Dd.
           apply IHd.
Qed.

Lemma valid_base64_decodes (key : string) :
  valid_base64 key = true -> exists key_bytes, b64decode key = Ok key_bytes.
Proof.
  intros Hvalid.
  destruct (valid_base64_decodes_upto (String.length key) key (Nat.le_refl _) Hvalid)
    as [Hascii Hdec].
  unfold b64decode, a2b_base64. rewrite Hascii. apply Hdec.
Qed.

(** A key with a character outside ASCII is rejected before any decoding. *)
Lemma b64decode_non_ascii (key : string) :
  forallb is_ascii_byte (list_byte_of_string key) = false ->
  b64decode key = Raise ValueError.
Proof. unfold b64decode. now intros ->. Qed.

(** [ascii_lower] is idempotent. *)
Lemma ascii_lower_idempotent (s : string) :
  ascii_lower (ascii_lower s) = ascii_lower s.
Proof.
  induction s as [|c s IH]; [reflexivity|].
  cbn [ascii_lower]. rewrite IH. f_equal.
  destruct c as [[] [] [] [] [] [] [] []]; reflexivity.
Qed.

End Library.

(* ================================================================== *)
(** * The signer: what [_get_auth_header] returns *)

Section SignerFacts.

Variable lower : string -> string.

(** The token in closed form, for a key that decodes. *)
Lemma sign_unfold (key verb resource_type resource_link date : string)
    (key_bytes : bytes) :
  Base64.b64decode key = Ok key_bytes ->
  _get_auth_header lower key verb resource_type resource_link date
  = Ok (Urllib.quote
          ("type=master&ver=1.0&sig="
           ++ decode_utf8
                (Base64.b64encode
                   (HMAC.digest key_bytes
                      (encode_utf8
                         (payload_of lower verb resource_type resource_link date)))))).
Proof.
  intros Hkey. unfold _get_auth_header. rewrite Hkey. cbn [rbind].
  set (digest := HMAC.digest _ _).
  assert (Hlen : List.length digest = 32%nat) by apply hmac_digest_length.
  rewrite encodebytes_one_line.
  - unfold decode_utf8. rewrite string_of_list_byte_app.
    change (string_of_list_byte [Base64.NL]) with (String (ascii_of_nat 10) EmptyString).
    now rewrite drop_last_snoc.
  - intros E. rewrite E in Hlen. discriminate Hlen.
  - rewrite Hlen. apply Nat.leb_le. reflexivity.
Qed.

(** A failure of [_get_auth_header] is a failure to decode the key. *)
Lemma sign_raises_only_on_key (key verb resource_type resource_link date : string)
    (e : exn) :
  _get_auth_header lower key verb resource_type resource_link date = Raise e ->
  Base64.b64decode key = Raise e.
Proof.
  unfold _get_auth_header. destruct (Base64.b64decode key); cbn [rbind]; congruence.
Qed.

End SignerFacts.

(** The token of a known key, as CPython computes it. *)
Example sign_known_key :
  _get_auth_header ascii_lower
    "kJzj8vxxxxxxxxxxxxxxxxxxxxxxxxxxxxxxxxxxxxxxxxxxxxxxxxxxxxxxxxxxxxxxxxxxxxxxxxxxxxxxxxxxxxxxxxxxxxxxxxxxxx=="
    "get" "dbs" EmptyString "Tue, 01 Nov 1994 08:12:31 GMT"
  = Ok "type%3Dmaster%26ver%3D1.0%26sig%3Dt6C1lYbct8T3Dfy40NCMThAcjtp1xVg4BIM4gRBoMZo%3D".
Proof. vm_compute. reflexivity. Qed.

(** C1. For a key that decodes, [_get_auth_header] returns the
    percent-encoding of ["type=master&ver=1.0&sig="] followed by the base64
    text of the HMAC-SHA256 digest, keyed by the decoded key, of the payload
    [lower(verb) LF lower(resource_type) LF resource_link LF lower(date) LF LF].
    The digest has 32 bytes, so [encodebytes] writes it on one line: the
    unwrapped encoding, which holds no newline, and the one newline that
    [signature[:-1]] removes. *)
Theorem sign_is_quoted_base64_hmac :
  forall (lower : string -> string)
         (key verb resource_type resource_link date : string)
         (key_bytes : bytes),
    Base64.b64decode key = Ok key_bytes ->
    let payload := lower verb ++ LF ++ lower resource_type ++ LF
                   ++ resource_link ++ LF ++ lower date ++ LF ++ LF in
    let digest := HMAC.digest key_bytes (encode_utf8 payload) in
    _get_auth_header lower key verb resource_type resource_link date
    = Ok (Urllib.quote ("type=master&ver=1.0&sig="
                        ++ decode_utf8 (Base64.b64encode digest)))
    /\ List.length digest = 32%nat
    /\ Base64.encodebytes digest = (Base64.b64encode digest ++ [Base64.NL])%list
    /\ ~ In Base64.NL (Base64.b64encode digest).
Proof.
  intros lower key verb resource_type resource_link date key_bytes Hkey payload digest.
  assert (Hlen : List.length digest = 32%nat) by apply hmac_digest_length.
  split; [|split; [|split]].
  - exact (sign_unfold lower key verb resource_type resource_link date key_bytes Hkey).
  - exact Hlen.
  - apply encodebytes_one_line.
    + intros E. rewrite E in Hlen. discriminate Hlen.
    + rewrite Hlen. apply Nat.leb_le. reflexivity.
  - apply b64encode_no_newline.
Qed.

Lemma sign_is_quoted_base64_hmac_witness :
  Base64.b64decode "QUJD" = Ok ["A"%byte; "B"%byte; "C"%byte]
  /\ _get_auth_header ascii_lower "QUJD" "GET" "dbs" EmptyString "Tue, 01 Nov 1994 08:12:31 GMT"
     = Ok (Urllib.quote
             ("type=master&ver=1.0&sig="
              ++ decode_utf8
                   (Base64.b64encode
                      (HMAC.digest ["A"%byte; "B"%byte; "C"%byte]
                         (encode_utf8
                            (ascii_lower "GET" ++ LF ++ ascii_lower "dbs" ++ LF
                             ++ EmptyString ++ LF
                             ++ ascii_lower "Tue, 01 Nov 1994 08:12:31 GMT"
                             ++ LF ++ LF)))))).
Proof.
  split; [reflexivity|].
  exact (proj1 (sign_is_quoted_base64_hmac ascii_lower "QUJD" "GET" "dbs" EmptyString
                  "Tue, 01 Nov 1994 08:12:31 GMT"
                  ["A"%byte; "B"%byte; "C"%byte] eq_refl)).
Defined.

(** C7. For a key that decodes, the token, once percent-decoded, is
    ["type=master&ver=1.0&sig="] followed by 44 characters of the base64
    alphabet (letters, digits, [+], [/] and the pad [=]). *)
Theorem sign_token_pattern :
  forall (lower : string -> string)
         (key verb resource_type resource_link date : string)
         (key_bytes : bytes),
    Base64.b64decode key = Ok key_bytes ->
    exists token sig,
      _get_auth_header lower key verb resource_type resource_link date = Ok token
      /\ Urllib.unquote token = "type=master&ver=1.0&sig=" ++ sig
      /\ str_forall is_b64_char sig = true
      /\ String.length sig = 44%nat.
Proof.
  intros lower key verb resource_type resource_link date key_bytes Hkey.
  eexists. eexists. split; [|split; [|split]].
  - exact (sign_unfold lower key verb resource_type resource_link date key_bytes Hkey).
  - apply unquote_quote.
  - apply str_forall_of_bytes, b2a_groups_chars.
  - unfold decode_utf8. rewrite string_length_of_bytes.
    apply b64encode_length_32, hmac_digest_length.
Qed.

Lemma sign_token_pattern_witness :
  exists token sig,
    _get_auth_header ascii_lower "QUJD" "get" "dbs" EmptyString "Tue, 01 Nov 1994 08:12:31 GMT"
    = Ok token
    /\ Urllib.unquote token = "type=master&ver=1.0&sig=" ++ sig
    /\ str_forall is_b64_char sig = true
    /\ String.length sig = 44%nat.
Proof.
  exact (sign_token_pattern ascii_lower "QUJD" "get" "dbs" EmptyString
           "Tue, 01 Nov 1994 08:12:31 GMT" ["A"%byte; "B"%byte; "C"%byte] eq_refl).
Defined.

(** C6, as the specification states it, fails: a key with a character
    outside the base64 alphabet is not valid base64, yet the decoder skips
    the character and the key signs. *)
Lemma sign_accepts_key_with_stray_character :
  valid_base64 "QUJD!" = false
  /\ _get_auth_header ascii_lower "QUJD!" "get" "dbs" EmptyString
       "Tue, 01 Nov 1994 08:12:31 GMT"
     = Ok "type%3Dmaster%26ver%3D1.0%26sig%3DfwQiyVpIQOt6%2BJ9TPuVujfKB1fJm3I4RCI2e28WzQnY%3D".
Proof. split; vm_compute; reflexivity. Qed.

(** C6, amended. For every key that [base64.b64decode] rejects,
    [_get_auth_header] raises the decoder's error, a [ValueError] or a
    [binascii.Error], and a probe given that key raises it too without
    handing anything to the network. *)
Theorem sign_raises_decoding_error :
  forall (lower : string -> string)
         (key verb resource_type resource_link date : string) (e : exn),
    Base64.b64decode key = Raise e ->
    _get_auth_header lower key verb resource_type resource_link date = Raise e
    /\ (e = ValueError \/ e = BinasciiError)
    /\ (forall clock network uri ssl_version w,
          fst (list_databases lower clock network uri key ssl_version w) = Raise e
          /\ wire (snd (list_databases lower clock network uri key ssl_version w))
             = wire w)
    /\ (forall clock network uri ssl_version db coll w,
          fst (basic_query lower clock network uri key ssl_version db coll w) = Raise e
          /\ wire (snd (basic_query lower clock network uri key ssl_version db coll w))
             = wire w).
Proof.
  intros lower key verb resource_type resource_link date e Hkey.
  assert (Hsign : forall v rt rl d, _get_auth_header lower key v rt rl d = Raise e).
  { intros. unfold _get_auth_header. now rewrite Hkey. }
  split; [apply Hsign|]. split; [exact (b64decode_raises key e Hkey)|]. split.
  - intros. unfold list_databases, bind, utcnow_strftime, lift.
    rewrite Hsign. split; reflexivity.
  - intros. unfold basic_query, bind, utcnow_strftime, lift.
    rewrite Hsign. split; reflexivity.
Qed.

Lemma sign_raises_decoding_error_witness :
  Base64.b64decode "QUJ" = Raise BinasciiError
  /\ _get_auth_header ascii_lower "QUJ" "get" "dbs" EmptyString
       "Tue, 01 Nov 1994 08:12:31 GMT" = Raise BinasciiError.
Proof.
  split; [reflexivity|].
  exact (proj1 (sign_raises_decoding_error ascii_lower "QUJ" "get" "dbs" EmptyString
                  "Tue, 01 Nov 1994 08:12:31 GMT" BinasciiError eq_refl)).
Defined.

(* ================================================================== *)
(** * Substrings *)

Lemma prefix_iff_app (p s : string) :
  String.prefix p s = true <-> exists post, s = p ++ post.
Proof.
  revert s. induction p as [|a p IH]; intros s.
  - destruct s; cbn [String.prefix]; split; intros _;
      solve [reflexivity | eexists; reflexivity].
  - destruct s as [|b s]; cbn [String.prefix append].
    + split; [discriminate | intros [post H]; discriminate H].
    + destruct (ascii_dec a b) as [->|Hab].
      * rewrite IH. split; intros [post H]; exists post; congruence.
      * split; [discriminate | intros [post H]; congruence].
Qed.

Lemma contains_unfold (needle s : string) :
  contains needle s
  = String.prefix needle s
    || match s with
       | EmptyString => false
       | String _ rest => contains needle rest
       end.
Proof. destruct s; reflexivity. Qed.

(** [contains] decides [has_substring]. *)
Lemma contains_iff (needle s : string) :
  contains needle s = true <-> has_substring needle s.
Proof.
  split.
  - induction s as [|c s IH]; rewrite contains_unfold; intros H;
      apply orb_true_iff in H; destruct H as [H|H].
    + apply prefix_iff_app in H. destruct H as [post H].
      exists EmptyString, post. exact H.
    + discriminate H.
    + apply prefix_iff_app in H. destruct H as [post H].
      exists EmptyString, post. exact H.
    + destruct (IH H) as [pre [post E]].
      exists (String c pre), post. cbn [append]. now rewrite E.
  - intros [pre [post E]]. subst s.
    induction pre as [|c pre IH]; rewrite contains_unfold.
    + apply orb_true_iff. left. apply prefix_iff_app. now exists post.
    + cbn [append]. rewrite IH. apply orb_true_r.
Qed.

(* ================================================================== *)
(** * The candidate versions *)

(** The six labels, in the order of the source. *)
Lemma ssl_version_labels (ssl : ssl_module) :
  map fst (_get_supported_ssl_versions ssl)
  = [ "SSL V2 (not supported by Azure Cosmos DB)";
      "SSL V3 (not supported by Azure Cosmos DB)";
      "TLS V1  "; "TLS V1.1"; "TLS V1.2"; "TLS V1.3" ].
Proof. reflexivity. Qed.

(** The flag of a legacy entry follows its [HAS_*] attribute as long as the
    protocol constant is not [0]. *)
Lemma legacy_flag (has : bool) (protocol : Z) :
  protocol <> 0 -> truthy (if_else_None has protocol) = has.
Proof.
  intros Hp. destruct has; cbn; [|reflexivity].
  destruct (Z.eqb_spec protocol 0); [contradiction | reflexivity].
Qed.

(** As soon as two of the five [OP_NO_*] options are distinct bits, their
    conjunction is [0] and the TLS 1.3 entry is falsy, whatever the stack
    supports. *)
Lemma tls13_flag_falsy (ssl : ssl_module) :
  Z.land (OP_NO_TLSv1_1 ssl) (OP_NO_TLSv1_2 ssl) = 0 ->
  fst (tls13_entry ssl) = "TLS V1.3" /\ truthy (snd (tls13_entry ssl)) = false.
Proof.
  intros Hbits. split; [reflexivity|].
  cbn. rewrite <- Z.land_assoc, Hbits, Z.land_0_r.
  destruct (HAS_TLSv1_2 ssl); reflexivity.
Qed.

(** C3. On a stack with TLS 1.3 (CPython over OpenSSL 1.1.1 or 3) the list
    has its six entries in order, the entries of TLS 1.0, 1.1 and 1.2 are
    truthy, and the entry of TLS 1.3 is falsy although [HAS_TLSv1_3] holds:
    the conjunction of the [OP_NO_*] bits is [0]. *)
Theorem tls13_entry_falsy_on_cpython :
  map (fun v => (fst v, truthy (snd v))) (_get_supported_ssl_versions cpython_ssl)
  = [ ("SSL V2 (not supported by Azure Cosmos DB)", false);
      ("SSL V3 (not supported by Azure Cosmos DB)", false);
      ("TLS V1  ", true); ("TLS V1.1", true); ("TLS V1.2", true);
      ("TLS V1.3", false) ]
  /\ HAS_TLSv1_3 cpython_ssl = true
  /\ snd (tls13_entry cpython_ssl) = PyInt 0.
Proof. repeat split. Qed.

(* ================================================================== *)
(** * The prober: requests sent and lines printed *)

Lemma sends_nothing {A} (P : request -> Prop) (m : M A) :
  (forall w, wire (snd (m w)) = wire w) -> sends P m.
Proof.
  intros H w. exists []. split; [|constructor].
  now rewrite H, app_nil_r.
Qed.

Lemma sends_ret {A} (P : request -> Prop) (a : A) : sends P (ret a).
Proof. now apply sends_nothing. Qed.

Lemma sends_lift {A} (P : request -> Prop) (r : result A) : sends P (lift r).
Proof. now apply sends_nothing. Qed.

Lemma sends_print (P : request -> Prop) (args : list string) : sends P (print args).
Proof. now apply sends_nothing. Qed.

Lemma sends_bind {A B} (P : request -> Prop) (m : M A) (k : A -> M B) :
  sends P m -> (forall a, sends P (k a)) -> sends P (bind m k).
Proof.
  intros Hm Hk w. unfold bind.
  destruct (Hm w) as [s1 [E1 F1]].
  destruct (m w) as [[a|e] w1]; cbn [snd] in E1.
  - destruct (Hk a w1) as [s2 [E2 F2]].
    exists (s1 ++ s2)%list. split.
    + now rewrite E2, E1, app_assoc.
    + apply Forall_app. now split.
  - exists s1. now split.
Qed.

Lemma sends_for_each {A} (P : request -> Prop) (l : list A) (f : A -> M unit) :
  (forall x, sends P (f x)) -> sends P (for_each l f).
Proof.
  intros Hf. induction l as [|x l IH]; cbn [for_each].
  - apply sends_ret.
  - apply sends_bind; [apply Hf | intros _; exact IH].
Qed.

Lemma sends_weaken {A} (P Q : request -> Prop) (m : M A) :
  (forall rq, P rq -> Q rq) -> sends P m -> sends Q m.
Proof.
  intros HPQ Hm w. destruct (Hm w) as [sent [E F]].
  exists sent. split; [exact E|].
  eapply Forall_impl; [exact HPQ | exact F].
Qed.

Lemma for_each_ext {A} (l : list A) (f g : A -> M unit) :
  (forall x w, f x w = g x w) ->
  forall w, for_each l f w = for_each l g w.
Proof.
  intros Hfg. induction l as [|x l IH]; intros w; cbn [for_each]; [reflexivity|].
  unfold bind. rewrite Hfg.
  destruct (g x w) as [[[]|e] w1]; [apply IH | reflexivity].
Qed.

Section ProberFacts.

Variable lower : string -> string.
Variable strip : string -> string.
Variable ssl : ssl_module.
Variable clock : nat -> string.
Variable network : nat -> request -> result response.

Lemma sends_utcnow (P : request -> Prop) : sends P (utcnow_strftime clock).
Proof. now apply sends_nothing. Qed.

Lemma sends_send_request (P : request -> Prop) uri v verb rt rl hs body :
  P (Request uri v verb rt rl hs body) ->
  sends P (_send_request network uri v verb rt rl hs body).
Proof.
  intros HP w. eexists. split; [reflexivity|].
  constructor; [exact HP | constructor].
Qed.

Lemma sends_report (P : request -> Prop) name qt r : sends P (report name qt r).
Proof.
  unfold report. destruct (ok r); [apply sends_print|].
  destruct (contains "TLS" (text r)); apply sends_print.
Qed.

Lemma sends_list_databases uri key v :
  sends (fun rq => rq_ssl_version rq = v /\ is_list_databases rq)
        (list_databases lower clock network uri key v).
Proof.
  unfold list_databases.
  apply sends_bind; [apply sends_utcnow | intros date].
  apply sends_bind; [apply sends_lift | intros auth].
  apply sends_send_request. repeat split.
Qed.

Lemma sends_basic_query uri key v db coll :
  sends (fun rq => rq_ssl_version rq = v /\ is_query db coll rq)
        (basic_query lower clock network uri key v db coll).
Proof.
  unfold basic_query.
  apply sends_bind; [apply sends_utcnow | intros date].
  apply sends_bind; [apply sends_lift | intros auth].
  apply sends_send_request. repeat split.
Qed.

(** What one turn of the loop may send: a request pinned to the turn's
    version, which is truthy; the query only with both names. *)
Lemma sends_probe_version (args : arguments) (name : string) (v : pyval) :
  sends (fun rq => rq_ssl_version rq = v /\ truthy v = true
                   /\ (is_list_databases rq
                       \/ (both_named args = true
                           /\ is_query (opt_str (database_name args))
                                       (opt_str (collection_name args)) rq)))
        (probe_version lower clock network args (name, v)).
Proof.
  unfold probe_version. destruct (truthy v) eqn:Hv; cbn [negb].
  - destruct (both_named args) eqn:Hboth.
    + apply sends_bind; [|intros r; apply sends_report].
      eapply sends_weaken; [|apply sends_basic_query].
      intros rq [E Q]. auto.
    + apply sends_bind; [|intros r; apply sends_report].
      eapply sends_weaken; [|apply sends_list_databases].
      intros rq [E Q]. auto.
  - apply sends_print.
Qed.

(** [main] is its banner followed by the loop over the candidate versions. *)
Lemma main_eq (args : arguments) (w : world) :
  main lower strip ssl clock network args w
  = for_each (_get_supported_ssl_versions ssl)
      (probe_version lower clock network (stripped strip args))
      (printed w (banner strip args)).
Proof.
  unfold main, stripped, banner, printed, bind, print, ret.
  cbn [endpoint authorization_key database_name collection_name].
  change (both_named {| endpoint := strip (endpoint args);
                        authorization_key := strip (authorization_key args);
                        database_name := database_name args;
                        collection_name := collection_name args |})
    with (both_named args).
  destruct (both_named args);
    cbn [stdout wire clock_reads String.concat app];
    repeat rewrite <- app_assoc; reflexivity.
Qed.

Lemma both_named_stripped (args : arguments) :
  both_named (stripped strip args) = true -> both_named args = true.
Proof.
  unfold stripped. destruct (both_named args) eqn:E; [reflexivity|].
  unfold both_named in *. cbn [database_name collection_name]. now rewrite E.
Qed.

Lemma names_stripped (args : arguments) :
  both_named args = true ->
  database_name (stripped strip args) = option_map strip (database_name args)
  /\ collection_name (stripped strip args) = option_map strip (collection_name args).
Proof. unfold stripped. intros ->. split; reflexivity. Qed.

Lemma sends_main (args : arguments) :
  sends (fun rq => truthy (rq_ssl_version rq) = true
                   /\ (is_list_databases rq
                       \/ (both_named args = true
                           /\ is_query (opt_str (option_map strip (database_name args)))
                                       (opt_str (option_map strip (collection_name args)))
                                       rq)))
        (main lower strip ssl clock network args).
Proof.
  intros w. rewrite main_eq.
  change (wire w) with (wire (printed w (banner strip args))).
  generalize (printed w (banner strip args)).
  refine (sends_for_each _ _ _ _). intros [name v].
  eapply sends_weaken; [|apply sends_probe_version].
  intros rq [E [Hv [Hl|[Hb Hq]]]]; subst v; (split; [exact Hv|]).
  - now left.
  - right. apply both_named_stripped in Hb.
    destruct (names_stripped args Hb) as [Hd Hc].
    rewrite Hd, Hc in Hq. now split.
Qed.

(** A response is always reported, on one line. *)
Lemma report_run name qt (r : response) (w : world) :
  exists line, report name qt r w = (Ok tt, printed w [line]).
Proof.
  unfold report. destruct (ok r); [eexists; reflexivity|].
  destruct (contains "TLS" (text r)); eexists; reflexivity.
Qed.

(** The list-databases probe with a key that decodes: one reading of the
    clock, one request, whose date header is the lower-cased clock text and
    whose token signs that same text. *)
Lemma list_databases_run uri key v (w : world) (key_bytes : bytes) :
  Base64.b64decode key = Ok key_bytes ->
  exists rq,
    list_databases lower clock network uri key v w
    = (network (List.length (wire w)) rq,
       {| stdout := stdout w; wire := (wire w ++ [rq])%list;
          clock_reads := S (clock_reads w) |})
    /\ rq_ssl_version rq = v
    /\ header "x-ms-date" (rq_headers rq) = Some (lower (clock (clock_reads w)))
    /\ exists token,
         header "authorization" (rq_headers rq) = Some token
         /\ _get_auth_header lower key "get" "dbs" EmptyString (lower (clock (clock_reads w)))
            = Ok token.
Proof.
  intros Hkey.
  pose proof (sign_unfold lower key "get" "dbs" EmptyString (lower (clock (clock_reads w)))
                key_bytes Hkey) as Hsign.
  eexists. unfold list_databases, bind, utcnow_strftime, lift, _send_request.
  rewrite Hsign. cbn [stdout wire clock_reads].
  split; [reflexivity|]. split; [reflexivity|]. split; [reflexivity|].
  eexists. split; reflexivity.
Qed.

Lemma basic_query_run uri key v db coll (w : world) (key_bytes : bytes) :
  Base64.b64decode key = Ok key_bytes ->
  exists rq,
    basic_query lower clock network uri key v db coll w
    = (network (List.length (wire w)) rq,
       {| stdout := stdout w; wire := (wire w ++ [rq])%list;
          clock_reads := S (clock_reads w) |})
    /\ rq_ssl_version rq = v
    /\ header "x-ms-date" (rq_headers rq) = Some (lower (clock (clock_reads w)))
    /\ exists token,
         header "authorization" (rq_headers rq) = Some token
         /\ _get_auth_header lower key "post" "docs"
              ("dbs/" ++ db ++ "/colls/" ++ coll) (lower (clock (clock_reads w)))
            = Ok token.
Proof.
  intros Hkey.
  pose proof (sign_unfold lower key "post" "docs" ("dbs/" ++ db ++ "/colls/" ++ coll)
                (lower (clock (clock_reads w))) key_bytes Hkey) as Hsign.
  eexists. unfold basic_query, bind, utcnow_strftime, lift, _send_request.
  rewrite Hsign. cbn [stdout wire clock_reads].
  split; [reflexivity|]. split; [reflexivity|]. split; [reflexivity|].
  eexists. split; reflexivity.
Qed.

(** One turn of the loop when the key decodes and the exchange, if any,
    returns a response: no exception, one line, and one request exactly
    when the version is truthy. *)
Lemma probe_version_http (args : arguments) (key_bytes : bytes) name v (w : world) :
  Base64.b64decode (authorization_key args) = Ok key_bytes ->
  (forall n rq, exists r, network n rq = Ok r) ->
  exists w' line sent,
    probe_version lower clock network args (name, v) w = (Ok tt, w')
    /\ stdout w' = (stdout w ++ [line])%list
    /\ wire w' = (wire w ++ sent)%list
    /\ map rq_ssl_version sent = if truthy v then [v] else [].
Proof.
  intros Hkey Hnet. unfold probe_version.
  destruct (truthy v); cbn [negb].
  - unfold bind. destruct (both_named args).
    + destruct (basic_query_run (endpoint args) (authorization_key args) v
                  (opt_str (database_name args)) (opt_str (collection_name args))
                  w key_bytes Hkey) as [rq [E [Ev _]]].
      rewrite E. destruct (Hnet (List.length (wire w)) rq) as [r Hr]. rewrite Hr.
      destruct (report_run name "Basic Query" r
                  {| stdout := stdout w; wire := (wire w ++ [rq])%list;
                     clock_reads := S (clock_reads w) |}) as [line Hl].
      rewrite Hl. eexists. exists line, [rq].
      split; [reflexivity|]. cbn. now rewrite Ev.
    + destruct (list_databases_run (endpoint args) (authorization_key args) v
                  w key_bytes Hkey) as [rq [E [Ev _]]].
      rewrite E. destruct (Hnet (List.length (wire w)) rq) as [r Hr]. rewrite Hr.
      destruct (report_run name "List Databases" r
                  {| stdout := stdout w; wire := (wire w ++ [rq])%list;
                     clock_reads := S (clock_reads w) |}) as [line Hl].
      rewrite Hl. eexists. exists line, [rq].
      split; [reflexivity|]. cbn. now rewrite Ev.
  - eexists. eexists. exists []. split; [reflexivity|].
    cbn. now rewrite app_nil_r.
Qed.

(** The loop under the same conditions: it completes, prints one line per
    candidate and probes the truthy candidates, each once, in order. *)
Lemma for_each_probe_http (args : arguments) (key_bytes : bytes)
    (vs : list (string * pyval)) :
  Base64.b64decode (authorization_key args) = Ok key_bytes ->
  (forall n rq, exists r, network n rq = Ok r) ->
  forall w, exists w' lines sent,
    for_each vs (probe_version lower clock network args) w = (Ok tt, w')
    /\ stdout w' = (stdout w ++ lines)%list
    /\ List.length lines = List.length vs
    /\ wire w' = (wire w ++ sent)%list
    /\ map rq_ssl_version sent = filter truthy (map snd vs).
Proof.
  intros Hkey Hnet. induction vs as [|[name v] vs IH]; intros w.
  - exists w, [], []. cbn. now rewrite !app_nil_r.
  - destruct (probe_version_http args key_bytes name v w Hkey Hnet)
      as [w1 [line [s1 [E1 [O1 [W1 V1]]]]]].
    destruct (IH w1) as [w2 [lines [s2 [E2 [O2 [L2 [W2 V2]]]]]]].
    exists w2, (line :: lines), (s1 ++ s2)%list.
    cbn [for_each]. unfold bind. rewrite E1, E2.
    split; [reflexivity|]. split; [|split; [|split]].
    + rewrite O2, O1, <- app_assoc. reflexivity.
    + cbn. now rewrite L2.
    + now rewrite W2, W1, app_assoc.
    + rewrite map_app, V1, V2. cbn [map snd filter].
      destruct (truthy v); reflexivity.
Qed.

(** An exception in one turn ends the loop in the world that turn left. *)
Lemma for_each_raises {A} (f : A -> M unit) (x : A) (rest : list A)
    (w w1 : world) (e : exn) :
  f x w = (Raise e, w1) -> for_each (x :: rest) f w = (Raise e, w1).
Proof. intros H. cbn [for_each]. unfold bind. now rewrite H. Qed.

(** One turn of the loop when the exchange raises: the request is sent,
    nothing is printed, the exception leaves the turn. *)
Lemma probe_version_raises (args : arguments) (key_bytes : bytes) name v
    (w : world) (e : exn) :
  Base64.b64decode (authorization_key args) = Ok key_bytes ->
  truthy v = true ->
  (forall rq, network (List.length (wire w)) rq = Raise e) ->
  exists rq,
    probe_version lower clock network args (name, v) w
    = (Raise e, {| stdout := stdout w; wire := (wire w ++ [rq])%list;
                   clock_reads := S (clock_reads w) |})
    /\ rq_ssl_version rq = v.
Proof.
  intros Hkey Hv Hnet. unfold probe_version. rewrite Hv. cbn [negb].
  unfold bind. destruct (both_named args).
  - destruct (basic_query_run (endpoint args) (authorization_key args) v
                (opt_str (database_name args)) (opt_str (collection_name args))
                w key_bytes Hkey) as [rq [E [Ev _]]].
    exists rq. rewrite E, Hnet. now split.
  - destruct (list_databases_run (endpoint args) (authorization_key args) v
                w key_bytes Hkey) as [rq [E [Ev _]]].
    exists rq. rewrite E, Hnet. now split.
Qed.

End ProberFacts.

(* ================================================================== *)
(** * The prober: the claims *)

(** C2. Whenever the exchange of a probe returns a response, the turn of the
    loop prints the line of one outcome: [Supported] if the response is
    [ok]; otherwise [NotSupported] if its text has the substring ["TLS"];
    otherwise [ConnectionError] with the status code and the text. *)
Theorem response_classification :
  forall (lower : string -> string) (clock : nat -> string)
         (network : nat -> request -> result response)
         (args : arguments) (name : string) (v : pyval)
         (w w1 : world) (r : response),
    truthy v = true ->
    (if both_named args
     then basic_query lower clock network (endpoint args) (authorization_key args) v
            (opt_str (database_name args)) (opt_str (collection_name args))
     else list_databases lower clock network (endpoint args) (authorization_key args) v)
      w = (Ok r, w1) ->
    let query_type := if both_named args then "Basic Query" else "List Databases" in
    exists o line,
      outcome_line name query_type o = Some line
      /\ probe_version lower clock network args (name, v) w = (Ok tt, printed w1 [line])
      /\ (ok r = true -> o = Supported)
      /\ (ok r = false -> has_substring "TLS" (text r) -> o = NotSupported)
      /\ (ok r = false -> ~ has_substring "TLS" (text r) ->
          o = ConnectionError (Some (status_code r)) (text r)).
Proof.
  intros lower clock network args name v w w1 r Hv Hprobe query_type.
  assert (Hturn : probe_version lower clock network args (name, v) w
                  = report name query_type r w1).
  { unfold probe_version, query_type. rewrite Hv. cbn [negb].
    unfold bind.
    destruct (both_named args); now rewrite Hprobe. }
  rewrite Hturn. unfold report.
  destruct (ok r) eqn:Hok.
  - exists Supported. eexists. split; [reflexivity|].
    split; [reflexivity|]. repeat split; intros; congruence.
  - destruct (contains "TLS" (text r)) eqn:Htls.
    + exists NotSupported. eexists. split; [reflexivity|].
      split; [reflexivity|]. repeat split; intros; try congruence.
      apply contains_iff in Htls. contradiction.
    + exists (ConnectionError (Some (status_code r)) (text r)). eexists.
      split; [reflexivity|]. split; [reflexivity|].
      repeat split; intros; try congruence.
      assert (contains "TLS" (text r) = true) by now apply contains_iff.
      congruence.
Qed.

Lemma response_classification_witness :
  exists o line,
    outcome_line "TLS V1  " "List Databases" o = Some line
    /\ probe_version ascii_lower clock_1994 network_http_400 args_account
         ("TLS V1  ", PyInt 3) world0
       = (Ok tt,
          printed (snd (list_databases ascii_lower clock_1994 network_http_400
                          (endpoint args_account) (authorization_key args_account)
                          (PyInt 3) world0))
            [line])
    /\ o = NotSupported.
Proof.
  destruct (response_classification ascii_lower clock_1994 network_http_400
              args_account "TLS V1  " (PyInt 3) world0
              (snd (list_databases ascii_lower clock_1994 network_http_400
                      (endpoint args_account) (authorization_key args_account)
                      (PyInt 3) world0))
              (Response 400 "TLS query not supported")
              eq_refl eq_refl)
    as [o [line [Hline [Hrun [_ [Hnot _]]]]]].
  exists o, line. split; [exact Hline|]. split; [exact Hrun|].
  apply Hnot; [reflexivity|].
  exists EmptyString, " query not supported". reflexivity.
Defined.

(** C10. In a run of [main] every request is the list-databases request
    (verb [get], resource type [dbs], empty resource link, no body) unless
    both a database name and a collection name were given, neither empty,
    where it may be the query on the stripped names (verb [post], resource
    type [docs], resource link [dbs/{database}/colls/{collection}], the
    literal query as body); and with one name or none the run is the run
    with no name. *)
Theorem query_only_with_both_names :
  forall (lower strip : string -> string) (ssl : ssl_module)
         (clock : nat -> string) (network : nat -> request -> result response)
         (args : arguments) (w : world),
    exists sent,
      wire (snd (main lower strip ssl clock network args w)) = (wire w ++ sent)%list
      /\ Forall (fun rq =>
                   is_list_databases rq
                   \/ (exists db coll,
                          database_name args = Some db /\ db <> EmptyString
                          /\ collection_name args = Some coll /\ coll <> EmptyString
                          /\ is_query (strip db) (strip coll) rq)) sent
      /\ (both_named args = false ->
          Forall is_list_databases sent
          /\ main lower strip ssl clock network args w
             = main lower strip ssl clock network
                 {| endpoint := endpoint args;
                    authorization_key := authorization_key args;
                    database_name := None;
                    collection_name := None |} w).
Proof.
  intros lower strip ssl clock network args w.
  destruct (sends_main lower strip ssl clock network args w) as [sent [E F]].
  exists sent. split; [exact E|]. split.
  - eapply Forall_impl; [|exact F]. intros rq [_ [H|[Hb Hq]]]; [now left | right].
    unfold both_named in Hb. apply andb_true_iff in Hb. destruct Hb as [Hd Hc].
    destruct (database_name args) as [db|]; [|discriminate Hd].
    destruct (collection_name args) as [coll|]; [|discriminate Hc].
    exists db, coll. cbn [str_truthy] in Hd, Hc.
    apply negb_true_iff in Hd, Hc.
    apply String.eqb_neq in Hd, Hc. auto.
  - intros Hboth. split.
    + eapply Forall_impl; [|exact F].
      intros rq [_ [H|[H _]]]; [exact H | congruence].
    + rewrite !main_eq. unfold banner, stripped.
      cbn [endpoint authorization_key database_name collection_name].
      rewrite Hboth.
      change (both_named {| endpoint := endpoint args;
                            authorization_key := authorization_key args;
                            database_name := None;
                            collection_name := None |}) with false.
      cbn match.
      apply for_each_ext. intros [name v] w1. unfold probe_version.
      cbn [endpoint authorization_key database_name collection_name].
      change (both_named {| endpoint := strip (endpoint args);
                            authorization_key := strip (authorization_key args);
                            database_name := database_name args;
                            collection_name := collection_name args |})
        with (both_named args).
      change (both_named {| endpoint := strip (endpoint args);
                            authorization_key := strip (authorization_key args);
                            database_name := None;
                            collection_name := None |}) with false.
      rewrite Hboth. reflexivity.
Qed.

Lemma query_only_with_both_names_witness :
  main ascii_lower ascii_strip cpython_ssl clock_1994 network_http_400
    {| endpoint := "https://acct.documents.azure.com:443/";
       authorization_key := "QUJD";
       database_name := Some "db";
       collection_name := None |} world0
  = main ascii_lower ascii_strip cpython_ssl clock_1994 network_http_400
      args_account world0.
Proof.
  destruct (query_only_with_both_names ascii_lower ascii_strip cpython_ssl
              clock_1994 network_http_400
              {| endpoint := "https://acct.documents.azure.com:443/";
                 authorization_key := "QUJD";
                 database_name := Some "db";
                 collection_name := None |} world0)
    as [sent [_ [_ H]]].
  exact (proj2 (H eq_refl)).
Defined.

(** C4, as the specification states it, fails: when the exchange of the
    first negotiable version raises, [main] ends with that exception; no
    line is printed for the version, and TLS 1.1 and 1.2, negotiable too,
    are never probed. *)
Lemma handshake_failure_aborts_run :
  let run := main ascii_lower ascii_strip cpython_ssl clock_1994 network_down
               args_account world0 in
  fst run = Raise (RequestException "SSLError")
  /\ stdout (snd run)
     = [ "Endpoint: [https://acct.documents.azure.com:443/]";
         LF ++ "SSL/TLS Version Support";
         "SSL V2 (not supported by Azure Cosmos DB) : Not supported by client";
         "SSL V3 (not supported by Azure Cosmos DB) : Not supported by client" ]
  /\ map rq_ssl_version (wire (snd run)) = [PyInt 3]
  /\ filter truthy (map snd (_get_supported_ssl_versions cpython_ssl))
     = [PyInt 3; PyInt 4; PyInt 5].
Proof. vm_compute. repeat split. Qed.

(** C4, amended. Let the key decode.  When every exchange returns an HTTP
    response, whatever its status, [main] completes: after its banner it
    prints one line for each of the six candidates and probes every truthy
    candidate once, in the order of the list.  When the exchange of a truthy
    candidate raises, the loop ends there with that exception: the request
    was sent, no line is printed for the candidate and the candidates after
    it are not visited. *)
Theorem http_failure_does_not_abort :
  forall (lower strip : string -> string) (ssl : ssl_module)
         (clock : nat -> string) (network : nat -> request -> result response)
         (args : arguments) (key_bytes : bytes),
    Base64.b64decode (strip (authorization_key args)) = Ok key_bytes ->
    ((forall n rq, exists r, network n rq = Ok r) ->
     forall w, exists w' lines sent,
       main lower strip ssl clock network args w = (Ok tt, w')
       /\ stdout w' = (stdout w ++ banner strip args ++ lines)%list
       /\ List.length lines = 6%nat
       /\ wire w' = (wire w ++ sent)%list
       /\ map rq_ssl_version sent
          = filter truthy (map snd (_get_supported_ssl_versions ssl)))
    /\ (forall name v rest w e,
          truthy v = true ->
          (forall rq, network (List.length (wire w)) rq = Raise e) ->
          exists rq,
            for_each ((name, v) :: rest)
              (probe_version lower clock network (stripped strip args)) w
            = (Raise e, {| stdout := stdout w; wire := (wire w ++ [rq])%list;
                           clock_reads := S (clock_reads w) |})
            /\ rq_ssl_version rq = v).
Proof.
  intros lower strip ssl clock network args key_bytes Hkey. split.
  - intros Hnet w. rewrite main_eq.
    destruct (for_each_probe_http lower clock network (stripped strip args) key_bytes
                (_get_supported_ssl_versions ssl) Hkey Hnet
                (printed w (banner strip args)))
      as [w' [lines [sent [E [O [L [W V]]]]]]].
    exists w', lines, sent. split; [exact E|].
    split; [|split; [exact L | split; [exact W | exact V]]].
    rewrite O. cbn [printed stdout]. now rewrite <- app_assoc.
  - intros name v rest w e Hv Hnet.
    destruct (probe_version_raises lower clock network (stripped strip args)
                key_bytes name v w e Hkey Hv Hnet) as [rq [E Ev]].
    exists rq. split; [|exact Ev].
    now apply for_each_raises.
Qed.

Lemma http_failure_does_not_abort_witness :
  exists w' lines sent,
    main ascii_lower ascii_strip cpython_ssl clock_1994 network_http_400
      args_account world0 = (Ok tt, w')
    /\ stdout w' = (stdout world0 ++ banner ascii_strip args_account ++ lines)%list
    /\ List.length lines = 6%nat
    /\ wire w' = (wire world0 ++ sent)%list
    /\ map rq_ssl_version sent
       = filter truthy (map snd (_get_supported_ssl_versions cpython_ssl)).
Proof.
  exact (proj1 (http_failure_does_not_abort ascii_lower ascii_strip cpython_ssl
                  clock_1994 network_http_400 args_account
                  ["A"%byte; "B"%byte; "C"%byte] eq_refl)
           (fun _ _ => ex_intro _ (Response 400 "TLS query not supported") eq_refl)
           world0).
Defined.

(** C5, as the specification states it, fails: the [x-ms-date] header of a
    probe is the lower-cased text, not the mixed-case text of the clock. *)
Lemma date_header_is_lower_cased :
  map (fun rq => header "x-ms-date" (rq_headers rq))
      (wire (snd (list_databases ascii_lower clock_1994 network_http_400
                    "https://acct.documents.azure.com:443/" "QUJD" (PyInt 5)
                    world0)))
  = [Some "tue, 01 nov 1994 08:12:31 gmt"]
  /\ "tue, 01 nov 1994 08:12:31 gmt" <> clock_1994 0.
Proof. split; [vm_compute; reflexivity | discriminate]. Qed.

(** C5, amended. Let [str.lower] be idempotent and the key decode.  Each
    probe sends one request whose [x-ms-date] header is the lower-cased text
    of the clock, and whose authorization token signs the payload in which
    the date field is that very string: the header and the signed payload
    carry the same date.  The header is the text as the clock formatted it
    only if lower-casing leaves that text unchanged. *)
Theorem date_header_carries_signed_date :
  forall (lower : string -> string) (clock : nat -> string)
         (network : nat -> request -> result response)
         (uri key : string) (v : pyval) (db coll : string)
         (w : world) (key_bytes : bytes),
    (forall s, lower (lower s) = lower s) ->
    Base64.b64decode key = Ok key_bytes ->
    let date_str := lower (clock (clock_reads w)) in
    let token_of verb resource_type resource_link :=
      Urllib.quote
        ("type=master&ver=1.0&sig="
         ++ decode_utf8
              (Base64.b64encode
                 (HMAC.digest key_bytes
                    (encode_utf8
                       (lower verb ++ LF ++ lower resource_type ++ LF
                        ++ resource_link ++ LF ++ date_str ++ LF ++ LF))))) in
    (exists rq,
        wire (snd (list_databases lower clock network uri key v w))
        = (wire w ++ [rq])%list
        /\ header "x-ms-date" (rq_headers rq) = Some date_str
        /\ header "authorization" (rq_headers rq)
           = Some (token_of "get" "dbs" EmptyString)
        /\ (header "x-ms-date" (rq_headers rq) = Some (clock (clock_reads w)) ->
            lower (clock (clock_reads w)) = clock (clock_reads w)))
    /\ (exists rq,
          wire (snd (basic_query lower clock network uri key v db coll w))
          = (wire w ++ [rq])%list
          /\ header "x-ms-date" (rq_headers rq) = Some date_str
          /\ header "authorization" (rq_headers rq)
             = Some (token_of "post" "docs" ("dbs/" ++ db ++ "/colls/" ++ coll))
          /\ (header "x-ms-date" (rq_headers rq) = Some (clock (clock_reads w)) ->
              lower (clock (clock_reads w)) = clock (clock_reads w))).
Proof.
  intros lower clock network uri key v db coll w key_bytes Hidem Hkey
    date_str token_of.
  split.
  - destruct (list_databases_run lower clock network uri key v w key_bytes Hkey)
      as [rq [E [_ [Hd [token [Ha Hs]]]]]].
    exists rq. rewrite E. split; [reflexivity|]. split; [exact Hd|]. split.
    + rewrite Ha. f_equal.
      rewrite (sign_unfold lower key "get" "dbs" EmptyString _ key_bytes Hkey) in Hs.
      unfold payload_of in Hs. rewrite Hidem in Hs.
      symmetry. exact (Ok_inj _ _ Hs).
    + rewrite Hd. intros H. exact (Some_inj _ _ H).
  - destruct (basic_query_run lower clock network uri key v db coll w key_bytes Hkey)
      as [rq [E [_ [Hd [token [Ha Hs]]]]]].
    exists rq. rewrite E. split; [reflexivity|]. split; [exact Hd|]. split.
    + rewrite Ha. f_equal.
      rewrite (sign_unfold lower key "post" "docs" _ _ key_bytes Hkey) in Hs.
      unfold payload_of in Hs. rewrite Hidem in Hs.
      symmetry. exact (Ok_inj _ _ Hs).
    + rewrite Hd. intros H. exact (Some_inj _ _ H).
Qed.

Lemma date_header_carries_signed_date_witness :
  exists rq,
    wire (snd (list_databases ascii_lower clock_1994 network_http_400
                 "https://acct.documents.azure.com:443/" "QUJD" (PyInt 5) world0))
    = (wire world0 ++ [rq])%list
    /\ header "x-ms-date" (rq_headers rq)
       = Some (ascii_lower (clock_1994 (clock_reads world0)))
    /\ header "authorization" (rq_headers rq)
       = Some (Urllib.quote
                 ("type=master&ver=1.0&sig="
                  ++ decode_utf8
                       (Base64.b64encode
                          (HMAC.digest ["A"%byte; "B"%byte; "C"%byte]
                             (encode_utf8
                                (ascii_lower "get" ++ LF ++ ascii_lower "dbs" ++ LF
                                 ++ EmptyString ++ LF
                                 ++ ascii_lower (clock_1994 (clock_reads world0))
                                 ++ LF ++ LF))))))
    /\ (header "x-ms-date" (rq_headers rq)
        = Some (clock_1994 (clock_reads world0)) ->
        ascii_lower (clock_1994 (clock_reads world0))
        = clock_1994 (clock_reads world0)).
Proof.
  exact (proj1 (date_header_carries_signed_date ascii_lower clock_1994
                  network_http_400 "https://acct.documents.azure.com:443/" "QUJD"
                  (PyInt 5) "db" "coll" world0
                  ["A"%byte; "B"%byte; "C"%byte]
                  ascii_lower_idempotent eq_refl)).
Defined.

(* ================================================================== *)
(** * base64: decoding what was encoded *)

Section Base64RoundTrip.

Import Base64.

Lemma all_bytes_complete (b : byte) : In b all_bytes.
Proof.
  assert (H : existsb (Byte.eqb b) all_bytes = true)
    by (destruct b; vm_compute; reflexivity).
  apply existsb_exists in H. destruct H as [x [Hin Heq]].
  apply Byte.byte_dec_bl in Heq. now subst x.
Qed.

Lemma for_all_bytes_sound (P : byte -> bool) :
  for_all_bytes P = true -> forall a, P a = true.
Proof.
  unfold for_all_bytes. intros H a.
  rewrite forallb_forall in H. apply H, all_bytes_complete.
Qed.

Lemma for_all_bytes2_sound (P : byte -> byte -> bool) :
  for_all_bytes2 P = true -> forall a b, P a b = true.
Proof.
  unfold for_all_bytes2. intros H a b.
  rewrite forallb_forall in H. specialize (H a (all_bytes_complete a)).
  rewrite forallb_forall in H. apply H, all_bytes_complete.
Qed.

(** A character of the table is in the decoding table, and is not the pad. *)
Lemma sextet_decodes (n : Z) :
  a2b_value (sextet n) = Some (dec (sextet n)) /\ Byte.eqb (sextet n) PAD = false.
Proof.
  unfold dec, sextet. pose proof (land_63_range n) as Hr.
  assert (Hm : (Z.to_nat (Z.land n 63) < 64)%nat) by lia.
  clear Hr. generalize dependent (Z.to_nat (Z.land n 63)). intros m Hm.
  do 64 (destruct m as [|m]; [split; reflexivity|]). lia.
Qed.

(** The bytes the decoder rebuilds from the characters of one group. *)
Lemma group_first_byte (a b : byte) :
  byte_of_Z (Z.lor (Z.shiftl (dec (enc1 a)) 2) (Z.shiftr (dec (enc2 a b)) 4)) = a.
Proof.
  apply Byte.byte_dec_bl.
  exact (for_all_bytes2_sound
           (fun a b => Byte.eqb
              (byte_of_Z (Z.lor (Z.shiftl (dec (enc1 a)) 2)
                                (Z.shiftr (dec (enc2 a b)) 4))) a)
           ltac:(vm_compute; reflexivity) a b).
Qed.

Lemma group_second_left (a b : byte) :
  Z.land (dec (enc2 a b)) 15 = Z.shiftr (Z_of_byte b) 4.
Proof.
  apply Z.eqb_eq.
  exact (for_all_bytes2_sound
           (fun a b => Z.land (dec (enc2 a b)) 15 =? Z.shiftr (Z_of_byte b) 4)
           ltac:(vm_compute; reflexivity) a b).
Qed.

Lemma group_second_byte (b c : byte) :
  byte_of_Z (Z.lor (Z.shiftl (Z.shiftr (Z_of_byte b) 4) 4)
                   (Z.shiftr (dec (enc3 b c)) 2)) = b.
Proof.
  apply Byte.byte_dec_bl.
  exact (for_all_bytes2_sound
           (fun b c => Byte.eqb
              (byte_of_Z (Z.lor (Z.shiftl (Z.shiftr (Z_of_byte b) 4) 4)
                                (Z.shiftr (dec (enc3 b c)) 2))) b)
           ltac:(vm_compute; reflexivity) b c).
Qed.

Lemma group_third_left (b c : byte) :
  Z.land (dec (enc3 b c)) 3 = Z.shiftr (Z_of_byte c) 6.
Proof.
  apply Z.eqb_eq.
  exact (for_all_bytes2_sound
           (fun b c => Z.land (dec (enc3 b c)) 3 =? Z.shiftr (Z_of_byte c) 6)
           ltac:(vm_compute; reflexivity) b c).
Qed.

Lemma group_third_byte (c : byte) :
  byte_of_Z (Z.lor (Z.shiftl (Z.shiftr (Z_of_byte c) 6) 6) (dec (enc4 c))) = c.
Proof.
  apply Byte.byte_dec_bl.
  exact (for_all_bytes_sound
           (fun c => Byte.eqb
              (byte_of_Z (Z.lor (Z.shiftl (Z.shiftr (Z_of_byte c) 6) 6)
                                (dec (enc4 c)))) c)
           ltac:(vm_compute; reflexivity) c).
Qed.

(** One step of the decoding loop on a character of the table. *)
Lemma a2b_loop_sextet (n : Z) (rest : bytes) (quad_pos leftchar pads : Z)
    (out : bytes) :
  a2b_loop (sextet n :: rest) quad_pos leftchar pads out
  = if quad_pos =? 0 then a2b_loop rest 1 (dec (sextet n)) 0 out
    else if quad_pos =? 1 then
      a2b_loop rest 2 (Z.land (dec (sextet n)) 15) 0
        (byte_of_Z (Z.lor (Z.shiftl leftchar 2) (Z.shiftr (dec (sextet n)) 4))
         :: out)
    else if quad_pos =? 2 then
      a2b_loop rest 3 (Z.land (dec (sextet n)) 3) 0
        (byte_of_Z (Z.lor (Z.shiftl leftchar 4) (Z.shiftr (dec (sextet n)) 2))
         :: out)
    else
      a2b_loop rest 0 0 0
        (byte_of_Z (Z.lor (Z.shiftl leftchar 6) (dec (sextet n))) :: out).
Proof.
  destruct (sextet_decodes n) as [Hv Hp].
  cbn [a2b_loop]. now rewrite Hp, Hv.
Qed.

(** Three bytes written and read back. *)
Lemma a2b_loop_group (a b c : byte) (rest : bytes) (leftchar pads : Z)
    (out : bytes) :
  a2b_loop (enc1 a :: enc2 a b :: enc3 b c :: enc4 c :: rest) 0 leftchar pads out
  = a2b_loop rest 0 0 0 (c :: b :: a :: out).
Proof.
  unfold enc1 at 1, enc2 at 1, enc3 at 1, enc4 at 1.
  rewrite !a2b_loop_sextet. cbn [Z.eqb].
  fold (enc1 a) (enc2 a b) (enc3 b c) (enc4 c).
  now rewrite group_first_byte, group_second_left, group_second_byte,
    group_third_left, group_third_byte.
Qed.

(** The decoding loop undoes [b2a_groups]. *)
Lemma a2b_loop_b2a_groups_upto (n : nat) :
  forall (data out : bytes) (leftchar pads : Z),
    (List.length data <= n)%nat ->
    a2b_loop (b2a_groups data) 0 leftchar pads out = Ok (rev out ++ data)%list.
Proof.
  induction n as [|n IH]; intros data out l p Hlen.
  - destruct data; [|cbn in Hlen; lia].
    cbn. now rewrite app_nil_r.
  - destruct data as [|a [|b [|c rest]]].
    + cbn. now rewrite app_nil_r.
    + cbn [b2a_groups].
      replace (Z.shiftl (Z.land (Z_of_byte a) 3) 4)
        with (Z.lor (Z.shiftl (Z.land (Z_of_byte a) 3) 4)
                    (Z.shiftr (Z_of_byte x00) 4))
        by apply Z.lor_0_r.
      fold (enc1 a) (enc2 a x00).
      unfold enc1 at 1, enc2 at 1. rewrite !a2b_loop_sextet. cbn [Z.eqb].
      fold (enc1 a) (enc2 a x00). rewrite group_first_byte.
      cbn. reflexivity.
    + cbn [b2a_groups].
      replace (Z.shiftl (Z.land (Z_of_byte b) 15) 2)
        with (Z.lor (Z.shiftl (Z.land (Z_of_byte b) 15) 2)
                    (Z.shiftr (Z_of_byte x00) 6))
        by apply Z.lor_0_r.
      fold (enc1 a) (enc2 a b) (enc3 b x00).
      unfold enc1 at 1, enc2 at 1, enc3 at 1.
      rewrite !a2b_loop_sextet. cbn [Z.eqb].
      fold (enc1 a) (enc2 a b) (enc3 b x00).
      rewrite group_first_byte, group_second_left, group_second_byte.
      cbn. now rewrite <- app_assoc.
    + cbn [b2a_groups].
      fold (enc1 a) (enc2 a b) (enc3 b c) (enc4 c).
      rewrite a2b_loop_group, IH by (cbn [List.length] in Hlen; lia).
      cbn [rev]. now rewrite <- !app_assoc.
Qed.

Lemma b64_char_is_ascii (b : byte) :
  is_b64_char (ascii_of_byte b) = true -> is_ascii_byte b = true.
Proof. destruct b; intros H; solve [reflexivity | discriminate H]. Qed.

(** [b64decode(b64encode(data)) == data]. *)
Lemma b64decode_b64encode (data : bytes) :
  b64decode (decode_utf8 (b64encode data)) = Ok data.
Proof.
  unfold b64decode, decode_utf8, b64encode, a2b_base64.
  rewrite list_byte_of_string_of_list_byte.
  assert (Hascii : forallb is_ascii_byte (b2a_groups data) = true).
  { apply forallb_forall. intros ch Hin.
    pose proof (b2a_groups_chars data) as Hall. rewrite Forall_forall in Hall.
    apply b64_char_is_ascii, Hall, Hin. }
  rewrite Hascii.
  exact (a2b_loop_b2a_groups_upto (List.length data) data [] 0 0 (Nat.le_refl _)).
Qed.

End Base64RoundTrip.

(* ================================================================== *)
(** * The signer: keys, tokens and payloads *)

Section SignerMore.

Import Base64.

Variable lower : string -> string.

Lemma list_byte_of_string_app (a b : string) :
  list_byte_of_string (a ++ b)
  = (list_byte_of_string a ++ list_byte_of_string b)%list.
Proof.
  unfold list_byte_of_string.
  induction a as [|x a IH]; [reflexivity|].
  cbn [append list_ascii_of_string map app]. now rewrite IH.
Qed.

Lemma stray_byte (c : ascii) :
  is_stray c = true ->
  is_ascii_byte (byte_of_ascii c) = true
  /\ Byte.eqb (byte_of_ascii c) PAD = false
  /\ a2b_value (byte_of_ascii c) = None.
Proof.
  destruct c as [[] [] [] [] [] [] [] []]; vm_compute; intros H;
    solve [discriminate H | repeat split].
Qed.

(** The decoding loop steps over a stray byte, whatever its state. *)
Lemma a2b_loop_skips (ch : byte) (pre post : bytes) :
  Byte.eqb ch PAD = false -> a2b_value ch = None ->
  forall quad_pos leftchar pads out,
    a2b_loop (pre ++ ch :: post)%list quad_pos leftchar pads out
    = a2b_loop (pre ++ post)%list quad_pos leftchar pads out.
Proof.
  intros Hp Hv. induction pre as [|x pre IH]; intros q l p out.
  - cbn [app a2b_loop]. now rewrite Hp, Hv.
  - cbn [app a2b_loop].
    destruct (Byte.eqb x PAD).
    + destruct ((2 <=? q) && (4 <=? q + (p + 1))); [reflexivity|].
      destruct (2 <=? q); apply IH.
    + destruct (a2b_value x) as [v|]; [|apply IH].
      destruct (q =? 0); [apply IH|].
      destruct (q =? 1); [apply IH|].
      destruct (q =? 2); apply IH.
Qed.

Lemma b64decode_skips (c : ascii) (pre post : string) :
  is_stray c = true ->
  b64decode (pre ++ String c post) = b64decode (pre ++ post).
Proof.
  intros Hc. destruct (stray_byte c Hc) as [Ha [Hp Hv]].
  unfold b64decode, a2b_base64. rewrite !list_byte_of_string_app.
  change (list_byte_of_string (String c post))
    with (byte_of_ascii c :: list_byte_of_string post).
  rewrite !forallb_app. cbn [forallb]. rewrite Ha. cbn [andb].
  destruct (forallb is_ascii_byte (list_byte_of_string pre)
            && forallb is_ascii_byte (list_byte_of_string post));
    [|reflexivity].
  now apply a2b_loop_skips.
Qed.

Lemma str_app_assoc (a b c : string) : (a ++ b) ++ c = a ++ (b ++ c).
Proof. induction a as [|x a IH]; cbn [append]; [reflexivity | now rewrite IH]. Qed.

Lemma str_app_nil_r (a : string) : a ++ EmptyString = a.
Proof. induction a as [|x a IH]; cbn [append]; [reflexivity | now rewrite IH]. Qed.

(** [quote] works character by character. *)
Lemma quote_app (a b : string) :
  Urllib.quote (a ++ b) = Urllib.quote a ++ Urllib.quote b.
Proof.
  unfold Urllib.quote. induction a as [|x a IH]; [reflexivity|].
  cbn [append Urllib.quote_from_bytes]. now rewrite IH, str_app_assoc.
Qed.

Lemma str_length_app (a b : string) :
  String.length (a ++ b) = (String.length a + String.length b)%nat.
Proof.
  induction a as [|x a IH]; cbn [append String.length]; [reflexivity | now rewrite IH].
Qed.

Lemma str_forall_app (p : ascii -> bool) (a b : string) :
  str_forall p (a ++ b) = str_forall p a && str_forall p b.
Proof.
  induction a as [|x a IH]; cbn [append str_forall]; [reflexivity|].
  now rewrite IH, andb_assoc.
Qed.

(** What [quote] writes for one character: safe characters and [%], one
    character or three. *)
Lemma quote_char_shape (c : ascii) :
  str_forall is_quoted_char (Urllib.quote_char "/" c) = true
  /\ (1 <= String.length (Urllib.quote_char "/" c) <= 3)%nat.
Proof.
  destruct c as [[] [] [] [] [] [] [] []];
    (split; [reflexivity | vm_compute; split; repeat constructor]).
Qed.

Lemma quote_shape (s : string) :
  str_forall is_quoted_char (Urllib.quote s) = true
  /\ (String.length s <= String.length (Urllib.quote s) <= 3 * String.length s)%nat.
Proof.
  unfold Urllib.quote. induction s as [|c s [IHc IHl]]; [split; [reflexivity | cbn; lia]|].
  cbn [Urllib.quote_from_bytes]. destruct (quote_char_shape c) as [Hc Hl].
  rewrite str_forall_app, str_length_app, Hc, IHc. cbn [String.length].
  split; [reflexivity | lia].
Qed.

(** The encoding of 32 bytes: 43 characters and one pad. *)
Lemma b64encode_32_ends_with_pad (d : bytes) :
  List.length d = 32%nat ->
  exists body, b64encode d = (body ++ [PAD])%list /\ List.length body = 43%nat.
Proof.
  intros H. exists (firstn 43 (b64encode d)).
  do 32 (destruct d as [|? d]; [discriminate H|]).
  destruct d; [split; reflexivity | discriminate H].
Qed.

(** A text that ends with the same character. *)
Lemma str_snoc_inj (a b : string) (x y : ascii) :
  a ++ String x EmptyString = b ++ String y EmptyString -> a = b /\ x = y.
Proof.
  revert b. induction a as [|c a IH]; intros [|c' b] H; cbn [append] in H.
  - injection H as ->. now split.
  - injection H as _ H. destruct b; discriminate H.
  - injection H as _ H. destruct a; discriminate H.
  - injection H as -> H. destruct (IH b H) as [-> ->]. now split.
Qed.

(** Two texts without newline, each followed by a newline and more: the
    first newline tells where each ends. *)
Lemma split_at_newline (a a' x x' : string) :
  no_newline a = true -> no_newline a' = true ->
  a ++ LF ++ x = a' ++ LF ++ x' -> a = a' /\ x = x'.
Proof.
  unfold no_newline, LF.
  revert a'. induction a as [|c a IH]; intros [|c' a'] Ha Ha' H;
    cbn [append] in H; cbn [str_mem] in Ha, Ha'.
  - injection H as ->. now split.
  - injection H as <- _. rewrite Ascii.eqb_refl in Ha'. discriminate Ha'.
  - injection H as -> _. rewrite Ascii.eqb_refl in Ha. discriminate Ha.
  - injection H as -> H.
    apply negb_true_iff, orb_false_iff in Ha. destruct Ha as [_ Ha].
    apply negb_true_iff, orb_false_iff in Ha'. destruct Ha' as [_ Ha'].
    assert (Hn : negb (str_mem (ascii_of_nat 10) a) = true) by now rewrite Ha.
    assert (Hn' : negb (str_mem (ascii_of_nat 10) a') = true) by now rewrite Ha'.
    destruct (IH a' Hn Hn' H) as [-> ->]. now split.
Qed.

End SignerMore.

(** X1. A character of the key that is ASCII but neither of the base64
    alphabet nor the pad (a space, a line break, punctuation) changes
    nothing: the key with it and the key without it give the same result. *)
Theorem sign_ignores_stray_key_characters :
  forall (lower : string -> string) (pre post : string) (c : ascii)
         (verb resource_type resource_link date : string),
    is_stray c = true ->
    _get_auth_header lower (pre ++ String c post) verb resource_type
      resource_link date
    = _get_auth_header lower (pre ++ post) verb resource_type resource_link date.
Proof.
  intros lower pre post c verb resource_type resource_link date Hc.
  unfold _get_auth_header. now rewrite b64decode_skips.
Qed.

Lemma sign_ignores_stray_key_characters_witness :
  _get_auth_header ascii_lower ("QU" ++ String " " "JD") "get" "dbs" EmptyString
    "Tue, 01 Nov 1994 08:12:31 GMT"
  = _get_auth_header ascii_lower ("QU" ++ "JD") "get" "dbs" EmptyString
      "Tue, 01 Nov 1994 08:12:31 GMT".
Proof.
  exact (sign_ignores_stray_key_characters ascii_lower "QU" "JD" " " "get" "dbs"
           EmptyString "Tue, 01 Nov 1994 08:12:31 GMT" eq_refl).
Defined.

(** X2. The key text that encodes a secret in base64 signs with that
    secret: the HMAC is keyed by exactly the bytes that were encoded. *)
Theorem sign_with_encoded_secret :
  forall (lower : string -> string) (secret : bytes)
         (verb resource_type resource_link date : string),
    _get_auth_header lower (decode_utf8 (Base64.b64encode secret)) verb
      resource_type resource_link date
    = Ok (Urllib.quote
            ("type=master&ver=1.0&sig="
             ++ decode_utf8
                  (Base64.b64encode
                     (HMAC.digest secret
                        (encode_utf8
                           (lower verb ++ LF ++ lower resource_type ++ LF
                            ++ resource_link ++ LF ++ lower date ++ LF ++ LF)))))).
Proof.
  intros lower secret verb resource_type resource_link date.
  exact (sign_unfold lower _ verb resource_type resource_link date secret
           (b64decode_b64encode secret)).
Qed.

(** X3. The signature carried by the token decodes back to the digest:
    percent-decoding the token and base64-decoding what follows the prefix
    gives the 32 bytes of the HMAC. *)
Theorem signature_decodes_to_digest :
  forall (lower : string -> string)
         (key verb resource_type resource_link date : string)
         (key_bytes : bytes),
    Base64.b64decode key = Ok key_bytes ->
    exists token sig,
      _get_auth_header lower key verb resource_type resource_link date = Ok token
      /\ Urllib.unquote token = "type=master&ver=1.0&sig=" ++ sig
      /\ Base64.b64decode sig
         = Ok (HMAC.digest key_bytes
                 (encode_utf8
                    (lower verb ++ LF ++ lower resource_type ++ LF
                     ++ resource_link ++ LF ++ lower date ++ LF ++ LF))).
Proof.
  intros lower key verb resource_type resource_link date key_bytes Hkey.
  eexists. eexists. split; [|split].
  - exact (sign_unfold lower key verb resource_type resource_link date key_bytes Hkey).
  - apply unquote_quote.
  - apply b64decode_b64encode.
Qed.

Lemma signature_decodes_to_digest_witness :
  exists token sig,
    _get_auth_header ascii_lower "QUJD" "get" "dbs" EmptyString
      "Tue, 01 Nov 1994 08:12:31 GMT" = Ok token
    /\ Urllib.unquote token = "type=master&ver=1.0&sig=" ++ sig
    /\ Base64.b64decode sig
       = Ok (HMAC.digest ["A"%byte; "B"%byte; "C"%byte]
               (encode_utf8
                  (ascii_lower "get" ++ LF ++ ascii_lower "dbs" ++ LF
                   ++ EmptyString ++ LF
                   ++ ascii_lower "Tue, 01 Nov 1994 08:12:31 GMT" ++ LF ++ LF))).
Proof.
  exact (signature_decodes_to_digest ascii_lower "QUJD" "get" "dbs" EmptyString
           "Tue, 01 Nov 1994 08:12:31 GMT" ["A"%byte; "B"%byte; "C"%byte] eq_refl).
Defined.

(** X4. Whatever the arguments, the token is made of letters, digits and
    [_ . - ~ / %] only, begins with the quoted prefix, ends with the quoted
    pad, and has between 80 and 166 characters. *)
Theorem token_is_header_safe :
  forall (lower : string -> string)
         (key verb resource_type resource_link date : string)
         (key_bytes : bytes),
    Base64.b64decode key = Ok key_bytes ->
    exists token body,
      _get_auth_header lower key verb resource_type resource_link date = Ok token
      /\ token = quoted_prefix ++ body ++ quoted_pad
      /\ str_forall is_quoted_char token = true
      /\ (80 <= String.length token <= 166)%nat.
Proof.
  intros lower key verb resource_type resource_link date key_bytes Hkey.
  pose proof (sign_unfold lower key verb resource_type resource_link date
                key_bytes Hkey) as Hsign.
  set (digest := HMAC.digest _ _) in Hsign.
  destruct (b64encode_32_ends_with_pad digest (hmac_digest_length _ _))
    as [body [Hbody Hlen]].
  exists (Urllib.quote ("type=master&ver=1.0&sig=" ++ decode_utf8 (Base64.b64encode digest))).
  exists (Urllib.quote (string_of_list_byte body)).
  split; [exact Hsign|].
  assert (Htok : Urllib.quote ("type=master&ver=1.0&sig="
                               ++ decode_utf8 (Base64.b64encode digest))
                 = quoted_prefix ++ Urllib.quote (string_of_list_byte body)
                   ++ quoted_pad).
  { unfold decode_utf8. rewrite Hbody, string_of_list_byte_app, !quote_app.
    reflexivity. }
  split; [exact Htok|]. split; [apply quote_shape|].
  rewrite Htok, !str_length_app.
  pose proof (proj2 (quote_shape (string_of_list_byte body))) as Hq.
  rewrite string_length_of_bytes, Hlen in Hq.
  change (String.length quoted_prefix) with 34%nat.
  change (String.length quoted_pad) with 3%nat. lia.
Qed.

Lemma token_is_header_safe_witness :
  exists token body,
    _get_auth_header ascii_lower "QUJD" "get" "dbs" EmptyString
      "Tue, 01 Nov 1994 08:12:31 GMT" = Ok token
    /\ token = quoted_prefix ++ body ++ quoted_pad
    /\ str_forall is_quoted_char token = true
    /\ (80 <= String.length token <= 166)%nat.
Proof.
  exact (token_is_header_safe ascii_lower "QUJD" "get" "dbs" EmptyString
           "Tue, 01 Nov 1994 08:12:31 GMT" ["A"%byte; "B"%byte; "C"%byte] eq_refl).
Defined.

(** X5. The token does not depend on the case of the verb, of the resource
    type or of the date: for an idempotent [lower], lower-casing any of them
    beforehand leaves the result unchanged.  So the token a probe sends, which
    signs the lower-cased clock text, is the token of the clock text as it
    was formatted. *)
Theorem sign_ignores_case :
  forall lower : string -> string,
    (forall s, lower (lower s) = lower s) ->
    (forall key verb resource_type resource_link date,
        _get_auth_header lower key (lower verb) resource_type resource_link date
        = _get_auth_header lower key verb resource_type resource_link date
        /\ _get_auth_header lower key verb (lower resource_type) resource_link date
           = _get_auth_header lower key verb resource_type resource_link date
        /\ _get_auth_header lower key verb resource_type resource_link (lower date)
           = _get_auth_header lower key verb resource_type resource_link date)
    /\ (forall clock network uri key ssl_version db coll w key_bytes,
          Base64.b64decode key = Ok key_bytes ->
          (exists rq token,
              wire (snd (list_databases lower clock network uri key ssl_version w))
              = (wire w ++ [rq])%list
              /\ header "authorization" (rq_headers rq) = Some token
              /\ _get_auth_header lower key "get" "dbs" EmptyString
                   (clock (clock_reads w)) = Ok token)
          /\ (exists rq token,
                wire (snd (basic_query lower clock network uri key ssl_version
                             db coll w))
                = (wire w ++ [rq])%list
                /\ header "authorization" (rq_headers rq) = Some token
                /\ _get_auth_header lower key "post" "docs"
                     ("dbs/" ++ db ++ "/colls/" ++ coll)
                     (clock (clock_reads w)) = Ok token)).
Proof.
  intros lower Hidem.
  assert (Hdate : forall key verb resource_type resource_link date,
             _get_auth_header lower key verb resource_type resource_link (lower date)
             = _get_auth_header lower key verb resource_type resource_link date).
  { intros. unfold _get_auth_header, payload_of. now rewrite Hidem. }
  split.
  - intros key verb resource_type resource_link date. split; [|split].
    + unfold _get_auth_header, payload_of. now rewrite Hidem.
    + unfold _get_auth_header, payload_of. now rewrite Hidem.
    + apply Hdate.
  - intros clock network uri key ssl_version db coll w key_bytes Hkey. split.
    + destruct (list_databases_run lower clock network uri key ssl_version w
                  key_bytes Hkey) as [rq [E [_ [_ [token [Ha Hs]]]]]].
      exists rq, token. rewrite E. split; [reflexivity|]. split; [exact Ha|].
      now rewrite <- Hdate.
    + destruct (basic_query_run lower clock network uri key ssl_version db coll w
                  key_bytes Hkey) as [rq [E [_ [_ [token [Ha Hs]]]]]].
      exists rq, token. rewrite E. split; [reflexivity|]. split; [exact Ha|].
      now rewrite <- Hdate.
Qed.

Lemma sign_ignores_case_witness :
  _get_auth_header ascii_lower "QUJD" (ascii_lower "GET") "dbs" EmptyString
    "Tue, 01 Nov 1994 08:12:31 GMT"
  = _get_auth_header ascii_lower "QUJD" "GET" "dbs" EmptyString
      "Tue, 01 Nov 1994 08:12:31 GMT".
Proof.
  exact (proj1 (proj1 (sign_ignores_case ascii_lower ascii_lower_idempotent)
                  "QUJD" "GET" "dbs" EmptyString "Tue, 01 Nov 1994 08:12:31 GMT")).
Defined.

(** Without the condition of X6 two requests can share a payload: a newline
    in the verb moves the border between verb and resource type. *)
Example payload_collision_with_newline :
  payload_of ascii_lower ("a" ++ LF ++ "b") "c" "dbs/x" "d"
  = payload_of ascii_lower "a" ("b" ++ LF ++ "c") "dbs/x" "d".
Proof. reflexivity. Qed.

(** X6. The signed payload is unambiguous as long as the lower-cased verb,
    the lower-cased resource type and the resource link hold no newline: two
    requests with the same payload then have the same lower-cased verb, the
    same lower-cased resource type, the same resource link and the same
    lower-cased date (the date may hold newlines). *)
Theorem payload_is_unambiguous :
  forall (lower : string -> string)
         (verb1 resource_type1 resource_link1 date1 : string)
         (verb2 resource_type2 resource_link2 date2 : string),
    no_newline (lower verb1) = true -> no_newline (lower verb2) = true ->
    no_newline (lower resource_type1) = true ->
    no_newline (lower resource_type2) = true ->
    no_newline resource_link1 = true -> no_newline resource_link2 = true ->
    payload_of lower verb1 resource_type1 resource_link1 date1
    = payload_of lower verb2 resource_type2 resource_link2 date2 ->
    lower verb1 = lower verb2 /\ lower resource_type1 = lower resource_type2
    /\ resource_link1 = resource_link2 /\ lower date1 = lower date2.
Proof.
  intros lower v1 t1 l1 d1 v2 t2 l2 d2 Hv1 Hv2 Ht1 Ht2 Hl1 Hl2 H.
  unfold payload_of in H.
  destruct (split_at_newline _ _ _ _ Hv1 Hv2 H) as [Ev H1].
  destruct (split_at_newline _ _ _ _ Ht1 Ht2 H1) as [Et H2].
  destruct (split_at_newline _ _ _ _ Hl1 Hl2 H2) as [El H3].
  split; [exact Ev|]. split; [exact Et|]. split; [exact El|].
  unfold LF in H3. rewrite <- !str_app_assoc in H3.
  apply str_snoc_inj in H3. destruct H3 as [H3 _].
  apply str_snoc_inj in H3. now destruct H3 as [H3 _].
Qed.

Lemma payload_is_unambiguous_witness :
  ascii_lower "GET" = ascii_lower "get" /\ ascii_lower "dbs" = ascii_lower "DBS"
  /\ "dbs/x" = "dbs/x"
  /\ ascii_lower "Tue, 01 Nov 1994 08:12:31 GMT"
     = ascii_lower "tue, 01 nov 1994 08:12:31 gmt".
Proof.
  exact (payload_is_unambiguous ascii_lower
           "GET" "dbs" "dbs/x" "Tue, 01 Nov 1994 08:12:31 GMT"
           "get" "DBS" "dbs/x" "tue, 01 nov 1994 08:12:31 gmt"
           eq_refl eq_refl eq_refl eq_refl eq_refl eq_refl eq_refl).
Defined.

(* ================================================================== *)
(** * The prober: whole runs *)

Section ProberMore.

Variable lower : string -> string.
Variable strip : string -> string.
Variable ssl : ssl_module.
Variable clock : nat -> string.
Variable network : nat -> request -> result response.

(** A probe with a key that does not decode: the clock is read, the
    decoding error is raised, nothing is sent or printed. *)
Lemma list_databases_bad_key uri key v (w : world) (e : exn) :
  Base64.b64decode key = Raise e ->
  list_databases lower clock network uri key v w
  = (Raise e, {| stdout := stdout w; wire := wire w;
                 clock_reads := S (clock_reads w) |}).
Proof.
  intros Hkey. unfold list_databases, bind, utcnow_strftime, lift, _get_auth_header.
  now rewrite Hkey.
Qed.

Lemma basic_query_bad_key uri key v db coll (w : world) (e : exn) :
  Base64.b64decode key = Raise e ->
  basic_query lower clock network uri key v db coll w
  = (Raise e, {| stdout := stdout w; wire := wire w;
                 clock_reads := S (clock_reads w) |}).
Proof.
  intros Hkey. unfold basic_query, bind, utcnow_strftime, lift, _get_auth_header.
  now rewrite Hkey.
Qed.

(** One turn of the loop, whatever the key and the network: what it sends,
    prints and reads. *)
Lemma probe_version_turn (args : arguments) name v (w : world) :
  exists sent lines,
    wire (snd (probe_version lower clock network args (name, v) w))
    = (wire w ++ sent)%list
    /\ stdout (snd (probe_version lower clock network args (name, v) w))
       = (stdout w ++ lines)%list
    /\ (forall rq, In rq sent ->
          header "x-ms-date" (rq_headers rq) = Some (lower (clock (clock_reads w))))
    /\ ((fst (probe_version lower clock network args (name, v) w) = Ok tt
         /\ List.length lines = 1%nat
         /\ map rq_ssl_version sent = (if truthy v then [v] else [])
         /\ clock_reads (snd (probe_version lower clock network args (name, v) w))
            = (clock_reads w + List.length sent)%nat)
        \/ (exists e,
              fst (probe_version lower clock network args (name, v) w) = Raise e
              /\ lines = [] /\ truthy v = true
              /\ (sent = [] \/ map rq_ssl_version sent = [v]))).
Proof.
  unfold probe_version. destruct (truthy v) eqn:Hv; cbn [negb].
  - unfold bind.
    destruct (Base64.b64decode (authorization_key args)) as [key_bytes|e] eqn:Hkey.
    + assert (Hprobe : exists rq,
                 (if both_named args
                  then basic_query lower clock network (endpoint args)
                         (authorization_key args) v (opt_str (database_name args))
                         (opt_str (collection_name args))
                  else list_databases lower clock network (endpoint args)
                         (authorization_key args) v) w
                 = (network (List.length (wire w)) rq,
                    {| stdout := stdout w; wire := (wire w ++ [rq])%list;
                       clock_reads := S (clock_reads w) |})
                 /\ rq_ssl_version rq = v
                 /\ header "x-ms-date" (rq_headers rq)
                    = Some (lower (clock (clock_reads w)))).
      { destruct (both_named args).
        - destruct (basic_query_run lower clock network (endpoint args)
                      (authorization_key args) v (opt_str (database_name args))
                      (opt_str (collection_name args)) w key_bytes Hkey)
            as [rq [E [Ev [Hd _]]]]. now exists rq.
        - destruct (list_databases_run lower clock network (endpoint args)
                      (authorization_key args) v w key_bytes Hkey)
            as [rq [E [Ev [Hd _]]]]. now exists rq. }
      destruct Hprobe as [rq [E [Ev Hd]]].
      assert (Hin : forall rq', In rq' [rq] ->
                 header "x-ms-date" (rq_headers rq')
                 = Some (lower (clock (clock_reads w)))).
      { intros rq' [<-|[]]. exact Hd. }
      destruct (network (List.length (wire w)) rq) as [r|e] eqn:Hnet.
      * set (w1 := {| stdout := stdout w; wire := (wire w ++ [rq])%list;
                      clock_reads := S (clock_reads w) |}) in *.
        exists [rq].
        destruct (both_named args);
          [destruct (report_run name "Basic Query" r w1) as [line Hl]
          |destruct (report_run name "List Databases" r w1) as [line Hl]];
          exists [line]; rewrite E, Hl; cbn;
          (split; [reflexivity|]); (split; [reflexivity|]); (split; [exact Hin|]);
          left; rewrite Ev; repeat split; lia.
      * exists [rq], [].
        destruct (both_named args); rewrite E; cbn; rewrite app_nil_r;
          (split; [reflexivity|]); (split; [reflexivity|]); (split; [exact Hin|]);
          right; exists e; rewrite Ev; repeat split; now right.
    + exists [], [].
      destruct (both_named args);
        [rewrite (basic_query_bad_key _ _ _ _ _ _ _ Hkey)
        |rewrite (list_databases_bad_key _ _ _ _ _ Hkey)];
        cbn; rewrite !app_nil_r;
        (split; [reflexivity|]); (split; [reflexivity|]);
        (split; [intros rq []|]);
        right; exists e; repeat split; now left.
  - exists [], [name ++ " " ++ ": Not supported by client"]. cbn.
    rewrite app_nil_r. split; [reflexivity|]. split; [reflexivity|].
    split; [intros rq []|]. left. repeat split. lia.
Qed.

(** The loop, whatever the key and the network. *)
Lemma for_each_probe_any (args : arguments) (vs : list (string * pyval)) :
  forall w, exists sent rest lines,
    wire (snd (for_each vs (probe_version lower clock network args) w))
    = (wire w ++ sent)%list
    /\ filter truthy (map snd vs) = (map rq_ssl_version sent ++ rest)%list
    /\ stdout (snd (for_each vs (probe_version lower clock network args) w))
       = (stdout w ++ lines)%list
    /\ (List.length lines <= List.length vs)%nat
    /\ (forall i rq, nth_error sent i = Some rq ->
          header "x-ms-date" (rq_headers rq)
          = Some (lower (clock (clock_reads w + i))))
    /\ (fst (for_each vs (probe_version lower clock network args) w) = Ok tt ->
        rest = [] /\ List.length lines = List.length vs).
Proof.
  induction vs as [|[name v] vs IH]; intros w.
  - exists [], [], []. cbn. rewrite !app_nil_r.
    repeat split; try reflexivity. intros [|i] rq H; discriminate H.
  - destruct (probe_version_turn args name v w)
      as [s1 [l1 [W1 [O1 [D1 Hturn]]]]].
    cbn [for_each]. unfold bind.
    destruct (probe_version lower clock network args (name, v) w)
      as [[[]|e] w1] eqn:E; cbn [fst snd] in *.
    + destruct Hturn as [[_ [L1 [V1 C1]]]|[e [He _]]]; [|discriminate He].
      destruct (IH w1) as [s2 [rest [l2 [W2 [F2 [O2 [L2 [D2 K2]]]]]]]].
      exists (s1 ++ s2)%list, rest, (l1 ++ l2)%list.
      split; [now rewrite W2, W1, app_assoc|].
      split.
      { cbn [map snd filter]. rewrite map_app, <- app_assoc, <- F2, V1.
        destruct (truthy v); reflexivity. }
      split; [now rewrite O2, O1, app_assoc|].
      split; [rewrite length_app, L1; cbn [List.length]; lia|].
      split.
      { intros i rq Hi.
        destruct (Nat.lt_ge_cases i (List.length s1)) as [Hlt|Hge].
        - rewrite nth_error_app1 in Hi by exact Hlt.
          assert (Hs1 : (List.length s1 <= 1)%nat).
          { rewrite <- (length_map rq_ssl_version), V1.
            destruct (truthy v); cbn; lia. }
          assert (i = 0%nat) by lia. subst i. rewrite Nat.add_0_r.
          apply D1. now apply nth_error_In with (n := 0%nat).
        - rewrite nth_error_app2 in Hi by exact Hge.
          specialize (D2 _ _ Hi). rewrite C1 in D2.
          now replace (clock_reads w + i)%nat
            with (clock_reads w + List.length s1 + (i - List.length s1))%nat by lia. }
      intros Hok. destruct (K2 Hok) as [-> L2'].
      split; [reflexivity|]. rewrite length_app, L1, L2'. reflexivity.
    + destruct Hturn as [[He _]|[e' [_ [-> [Hv Hs]]]]]; [discriminate He|].
      exists s1, (match s1 with [] => v :: filter truthy (map snd vs)
                          | _ => filter truthy (map snd vs) end), [].
      split; [exact W1|]. split.
      { cbn [map snd filter]. rewrite Hv.
        destruct Hs as [->|Hs]; [reflexivity|].
        destruct s1 as [|rq s1]; [discriminate Hs|].
        now rewrite Hs. }
      split; [exact O1|]. split; [cbn; lia|]. split.
      { intros i rq Hi.
        assert (Hs1 : (List.length s1 <= 1)%nat).
        { destruct Hs as [->|Hs]; [cbn; lia|].
          rewrite <- (length_map rq_ssl_version), Hs. cbn. lia. }
        assert (Hi' : (i < List.length s1)%nat)
          by (apply nth_error_Some; congruence).
        assert (i = 0%nat) by lia. subst i. rewrite Nat.add_0_r.
        apply D1. now apply nth_error_In with (n := 0%nat). }
      intros Hok. discriminate Hok.
Qed.

(** The loop with a key that does not decode: it stops at the first truthy
    candidate and sends nothing. *)
Lemma for_each_probe_bad_key (args : arguments) (e : exn)
    (vs : list (string * pyval)) :
  Base64.b64decode (authorization_key args) = Raise e ->
  forall w,
    wire (snd (for_each vs (probe_version lower clock network args) w)) = wire w
    /\ fst (for_each vs (probe_version lower clock network args) w)
       = if existsb truthy (map snd vs) then Raise e else Ok tt.
Proof.
  intros Hkey. induction vs as [|[name v] vs IH]; intros w.
  - split; reflexivity.
  - assert (Hturn : probe_version lower clock network args (name, v) w
                    = if truthy v
                      then (Raise e, {| stdout := stdout w; wire := wire w;
                                        clock_reads := S (clock_reads w) |})
                      else (Ok tt, printed w [name ++ " " ++ ": Not supported by client"])).
    { unfold probe_version. destruct (truthy v); cbn [negb]; [|reflexivity].
      unfold bind.
      destruct (both_named args);
        [rewrite (basic_query_bad_key _ _ _ _ _ _ _ Hkey)
        |rewrite (list_databases_bad_key _ _ _ _ _ Hkey)]; reflexivity. }
    cbn [for_each map snd existsb]. unfold bind. rewrite Hturn.
    destruct (truthy v); cbn [orb]; [split; reflexivity|].
    destruct (IH (printed w [name ++ " " ++ ": Not supported by client"]))
      as [Hw Hf].
    split; [exact Hw | exact Hf].
Qed.

(** What a turn sends, by the names the loop runs with. *)
Lemma sends_probe_version_kind (args : arguments) name v :
  sends (fun rq => if both_named args
                   then is_query (opt_str (database_name args))
                                 (opt_str (collection_name args)) rq
                   else is_list_databases rq)
        (probe_version lower clock network args (name, v)).
Proof.
  unfold probe_version. destruct (truthy v); cbn [negb]; [|apply sends_print].
  destruct (both_named args).
  - apply sends_bind; [|intros r; apply sends_report].
    eapply sends_weaken; [|apply sends_basic_query]. now intros rq [_ H].
  - apply sends_bind; [|intros r; apply sends_report].
    eapply sends_weaken; [|apply sends_list_databases]. now intros rq [_ H].
Qed.

(** [bind] after a pure computation: the continuation runs on its value. *)
Lemma sends_bind_lift {A B} (P : request -> Prop) (r : result A) (k : A -> M B) :
  (forall a, r = Ok a -> sends P (k a)) -> sends P (bind (lift r) k).
Proof.
  intros Hk w. unfold bind, lift. destruct r as [a|e].
  - exact (Hk a eq_refl w).
  - exists []. cbn. split; [now rewrite app_nil_r | constructor].
Qed.

Lemma sends_probe_version_signed (args : arguments) name v :
  sends (is_signed_request lower (endpoint args) (authorization_key args))
        (probe_version lower clock network args (name, v)).
Proof.
  unfold probe_version. destruct (truthy v); cbn [negb]; [|apply sends_print].
  destruct (both_named args).
  - apply sends_bind; [|intros r; apply sends_report].
    unfold basic_query.
    apply sends_bind; [apply sends_utcnow | intros date].
    apply sends_bind_lift. intros auth Hauth.
    apply sends_send_request. unfold is_signed_request.
    cbn [rq_uri rq_headers rq_verb rq_resource_type rq_resource_link].
    split; [reflexivity|]. split; [reflexivity|]. split; [reflexivity|].
    exists (lower date), auth. split; [reflexivity|]. split; [reflexivity|].
    exact Hauth.
  - apply sends_bind; [|intros r; apply sends_report].
    unfold list_databases.
    apply sends_bind; [apply sends_utcnow | intros date].
    apply sends_bind_lift. intros auth Hauth.
    apply sends_send_request. unfold is_signed_request.
    cbn [rq_uri rq_headers rq_verb rq_resource_type rq_resource_link].
    split; [reflexivity|]. split; [reflexivity|]. split; [reflexivity|].
    exists (lower date), auth. split; [reflexivity|]. split; [reflexivity|].
    exact Hauth.
Qed.

(** The truthy candidates are the usable legacy versions as soon as two of
    the [OP_NO_*] options are distinct bits. *)
Lemma truthy_candidates :
  Z.land (OP_NO_TLSv1_1 ssl) (OP_NO_TLSv1_2 ssl) = 0 ->
  filter truthy (map snd (_get_supported_ssl_versions ssl)) = usable_versions ssl.
Proof.
  intros Hbits. unfold _get_supported_ssl_versions, usable_versions, legacy_versions.
  cbn [app map snd fst filter].
  rewrite <- (Z.land_assoc _ (OP_NO_TLSv1_1 ssl)), Hbits, Z.land_0_r.
  assert (H13 : truthy (if_else_None (HAS_TLSv1_2 ssl) 0) = false)
    by (destruct (HAS_TLSv1_2 ssl); reflexivity).
  rewrite H13.
  assert (Hflag : forall h p, truthy (if_else_None h p) = h && negb (p =? 0))
    by (intros [] p; reflexivity).
  rewrite !Hflag.
  destruct (HAS_SSLv2 ssl && negb (PROTOCOL_SSLv2 ssl =? 0)) eqn:E2,
           (HAS_SSLv3 ssl && negb (PROTOCOL_SSLv3 ssl =? 0)) eqn:E3,
           (HAS_TLSv1 ssl && negb (PROTOCOL_TLSv1 ssl =? 0)) eqn:E10,
           (HAS_TLSv1_1 ssl && negb (PROTOCOL_TLSv1_1 ssl =? 0)) eqn:E11,
           (HAS_TLSv1_2 ssl && negb (PROTOCOL_TLSv1_2 ssl =? 0)) eqn:E12;
    cbn [map snd];
    repeat match goal with
           | H : ?h && _ = true |- context [if_else_None ?h _] =>
               apply andb_true_iff in H; destruct H as [H _]; rewrite H
           end;
    reflexivity.
Qed.

End ProberMore.

(** X7. With a key that does not decode, a run of [main] hands nothing to
    the network; it ends with the decoding error as soon as one candidate is
    truthy, and normally if none is. *)
Theorem undecodable_key_sends_nothing :
  forall (lower strip : string -> string) (ssl : ssl_module)
         (clock : nat -> string) (network : nat -> request -> result response)
         (args : arguments) (e : exn),
    Base64.b64decode (strip (authorization_key args)) = Raise e ->
    forall w,
      wire (snd (main lower strip ssl clock network args w)) = wire w
      /\ fst (main lower strip ssl clock network args w)
         = if existsb truthy (map snd (_get_supported_ssl_versions ssl))
           then Raise e else Ok tt.
Proof.
  intros lower strip ssl clock network args e Hkey w. rewrite main_eq.
  exact (for_each_probe_bad_key lower clock network (stripped strip args) e
           (_get_supported_ssl_versions ssl) Hkey (printed w (banner strip args))).
Qed.

Lemma undecodable_key_sends_nothing_witness :
  wire (snd (main ascii_lower ascii_strip cpython_ssl clock_1994 network_http_400
               {| endpoint := "https://acct.documents.azure.com:443/";
                  authorization_key := " QUJ ";
                  database_name := None;
                  collection_name := None |} world0))
  = wire world0
  /\ fst (main ascii_lower ascii_strip cpython_ssl clock_1994 network_http_400
            {| endpoint := "https://acct.documents.azure.com:443/";
               authorization_key := " QUJ ";
               database_name := None;
               collection_name := None |} world0)
     = Raise BinasciiError.
Proof.
  exact (undecodable_key_sends_nothing ascii_lower ascii_strip cpython_ssl
           clock_1994 network_http_400
           {| endpoint := "https://acct.documents.azure.com:443/";
              authorization_key := " QUJ ";
              database_name := None;
              collection_name := None |} BinasciiError eq_refl world0).
Defined.

(** X8. In every run of [main], whatever the key and the network, the
    versions probed are an initial part of the truthy candidates, in the
    order of the list and each once; after the banner at most six lines are
    printed; and a run that ends normally has probed every truthy candidate
    and printed exactly six lines. *)
Theorem probes_follow_the_list :
  forall (lower strip : string -> string) (ssl : ssl_module)
         (clock : nat -> string) (network : nat -> request -> result response)
         (args : arguments) (w : world),
    exists sent rest lines,
      wire (snd (main lower strip ssl clock network args w)) = (wire w ++ sent)%list
      /\ filter truthy (map snd (_get_supported_ssl_versions ssl))
         = (map rq_ssl_version sent ++ rest)%list
      /\ stdout (snd (main lower strip ssl clock network args w))
         = (stdout w ++ banner strip args ++ lines)%list
      /\ (List.length lines <= 6)%nat
      /\ (fst (main lower strip ssl clock network args w) = Ok tt ->
          rest = [] /\ List.length lines = 6%nat).
Proof.
  intros lower strip ssl clock network args w. rewrite main_eq.
  destruct (for_each_probe_any lower clock network (stripped strip args)
              (_get_supported_ssl_versions ssl) (printed w (banner strip args)))
    as [sent [rest [lines [W [F [O [L [_ K]]]]]]]].
  exists sent, rest, lines.
  split; [exact W|]. split; [exact F|].
  split; [rewrite O; cbn [printed stdout]; now rewrite <- app_assoc|].
  split; [exact L | exact K].
Qed.

(** X9. Every request of a run can be checked by the server: it is sent to
    the stripped endpoint, and its authorization header is the token that
    [_get_auth_header] computes, under the stripped key, from the request's
    own verb, resource type, resource link and [x-ms-date] header; it also
    carries [x-ms-version: 2017-02-22] and [Cache-Control: no-cache]. *)
Theorem every_request_is_signed :
  forall (lower strip : string -> string) (ssl : ssl_module)
         (clock : nat -> string) (network : nat -> request -> result response)
         (args : arguments) (w : world),
    exists sent,
      wire (snd (main lower strip ssl clock network args w)) = (wire w ++ sent)%list
      /\ Forall (is_signed_request lower (strip (endpoint args))
                   (strip (authorization_key args))) sent.
Proof.
  intros lower strip ssl clock network args w. rewrite main_eq.
  change (wire w) with (wire (printed w (banner strip args))).
  generalize (printed w (banner strip args)).
  refine (sends_for_each _ _ _ _). intros [name v].
  exact (sends_probe_version_signed lower clock network (stripped strip args) name v).
Qed.

(** X10. The clock is read anew for each probe: the [x-ms-date] header of
    the [i]-th request of a run is the lower-cased text of the [i]-th
    reading of the clock made by the run. *)
Theorem timestamp_is_read_for_each_request :
  forall (lower strip : string -> string) (ssl : ssl_module)
         (clock : nat -> string) (network : nat -> request -> result response)
         (args : arguments) (w : world),
    exists sent,
      wire (snd (main lower strip ssl clock network args w)) = (wire w ++ sent)%list
      /\ forall i rq,
           nth_error sent i = Some rq ->
           header "x-ms-date" (rq_headers rq)
           = Some (lower (clock (clock_reads w + i)%nat)).
Proof.
  intros lower strip ssl clock network args w. rewrite main_eq.
  destruct (for_each_probe_any lower clock network (stripped strip args)
              (_get_supported_ssl_versions ssl) (printed w (banner strip args)))
    as [sent [rest [lines [W [_ [_ [_ [D _]]]]]]]].
  exists sent. split; [exact W | exact D].
Qed.

(** X11. With a database name and a collection name that are not empty,
    before and after stripping, every request of a run is the query on the
    stripped names. *)
Theorem both_names_give_queries :
  forall (lower strip : string -> string) (ssl : ssl_module)
         (clock : nat -> string) (network : nat -> request -> result response)
         (args : arguments) (db coll : string),
    database_name args = Some db -> collection_name args = Some coll ->
    db <> EmptyString -> coll <> EmptyString ->
    strip db <> EmptyString -> strip coll <> EmptyString ->
    forall w, exists sent,
      wire (snd (main lower strip ssl clock network args w)) = (wire w ++ sent)%list
      /\ Forall (is_query (strip db) (strip coll)) sent.
Proof.
  intros lower strip ssl clock network args db coll Hd Hc Hdb Hcoll Hsd Hsc w.
  rewrite main_eq.
  change (wire w) with (wire (printed w (banner strip args))).
  generalize (printed w (banner strip args)).
  refine (sends_for_each _ _ _ _). intros [name v].
  eapply sends_weaken; [|apply sends_probe_version_kind].
  assert (Hboth : both_named args = true).
  { unfold both_named. rewrite Hd, Hc. cbn [str_truthy].
    apply String.eqb_neq in Hdb, Hcoll. now rewrite Hdb, Hcoll. }
  unfold stripped, both_named at 1.
  cbn [database_name collection_name]. rewrite Hboth, Hd, Hc.
  cbn [option_map str_truthy opt_str].
  apply String.eqb_neq in Hsd, Hsc. rewrite Hsd, Hsc. cbn [negb andb].
  now intros rq H.
Qed.

Lemma both_names_give_queries_witness :
  exists sent,
    wire (snd (main ascii_lower ascii_strip cpython_ssl clock_1994 network_http_400
                 {| endpoint := "https://acct.documents.azure.com:443/";
                    authorization_key := "QUJD";
                    database_name := Some " db ";
                    collection_name := Some "coll" |} world0))
    = (wire world0 ++ sent)%list
    /\ Forall (is_query (ascii_strip " db ") (ascii_strip "coll")) sent.
Proof.
  exact (both_names_give_queries ascii_lower ascii_strip cpython_ssl clock_1994
           network_http_400
           {| endpoint := "https://acct.documents.azure.com:443/";
              authorization_key := "QUJD";
              database_name := Some " db ";
              collection_name := Some "coll" |} " db " "coll"
           eq_refl eq_refl ltac:(discriminate) ltac:(discriminate)
           ltac:(discriminate) ltac:(discriminate) world0).
Defined.

(** X12. With two names of which one is blank (not empty, but empty once
    stripped), the banner announces the database and the collection, yet
    every request of the run is the list-databases request. *)
Theorem blank_name_falls_back :
  forall (lower strip : string -> string) (ssl : ssl_module)
         (clock : nat -> string) (network : nat -> request -> result response)
         (args : arguments) (db coll : string),
    database_name args = Some db -> collection_name args = Some coll ->
    db <> EmptyString -> coll <> EmptyString ->
    strip db = EmptyString \/ strip coll = EmptyString ->
    forall w, exists sent,
      wire (snd (main lower strip ssl clock network args w)) = (wire w ++ sent)%list
      /\ Forall is_list_databases sent
      /\ In ("Database name: [" ++ strip db ++ "], Collection name: ["
             ++ strip coll ++ "]")
            (stdout (snd (main lower strip ssl clock network args w))).
Proof.
  intros lower strip ssl clock network args db coll Hd Hc Hdb Hcoll Hblank w.
  assert (Hboth : both_named args = true).
  { unfold both_named. rewrite Hd, Hc. cbn [str_truthy].
    apply String.eqb_neq in Hdb, Hcoll. now rewrite Hdb, Hcoll. }
  assert (Hstripped : both_named (stripped strip args) = false).
  { unfold stripped, both_named at 1.
    cbn [database_name collection_name]. rewrite Hboth, Hd, Hc.
    cbn [option_map str_truthy].
    destruct Hblank as [-> | ->]; cbn; [reflexivity | apply andb_false_r]. }
  destruct (for_each_probe_any lower clock network (stripped strip args)
              (_get_supported_ssl_versions ssl) (printed w (banner strip args)))
    as [sent [rest [lines [W [_ [O _]]]]]].
  assert (Hsends : sends is_list_databases
                     (for_each (_get_supported_ssl_versions ssl)
                        (probe_version lower clock network (stripped strip args)))).
  { apply sends_for_each. intros [name v].
    eapply sends_weaken; [|apply sends_probe_version_kind].
    rewrite Hstripped. now intros rq H. }
  destruct (Hsends (printed w (banner strip args))) as [sent' [W' F']].
  rewrite main_eq. exists sent'. split; [exact W'|]. split; [exact F'|].
  rewrite O. cbn [printed stdout]. unfold banner. rewrite Hboth, Hd, Hc.
  cbn [option_map opt_str].
  apply in_or_app. left. apply in_or_app. right.
  cbn [app]. right. left. reflexivity.
Qed.

Lemma blank_name_falls_back_witness :
  exists sent,
    wire (snd (main ascii_lower ascii_strip cpython_ssl clock_1994 network_http_400
                 {| endpoint := "https://acct.documents.azure.com:443/";
                    authorization_key := "QUJD";
                    database_name := Some "  ";
                    collection_name := Some "coll" |} world0))
    = (wire world0 ++ sent)%list
    /\ Forall is_list_databases sent
    /\ In ("Database name: [" ++ ascii_strip "  " ++ "], Collection name: ["
           ++ ascii_strip "coll" ++ "]")
          (stdout (snd (main ascii_lower ascii_strip cpython_ssl clock_1994
                          network_http_400
                          {| endpoint := "https://acct.documents.azure.com:443/";
                             authorization_key := "QUJD";
                             database_name := Some "  ";
                             collection_name := Some "coll" |} world0))).
Proof.
  exact (blank_name_falls_back ascii_lower ascii_strip cpython_ssl clock_1994
           network_http_400
           {| endpoint := "https://acct.documents.azure.com:443/";
              authorization_key := "QUJD";
              database_name := Some "  ";
              collection_name := Some "coll" |} "  " "coll"
           eq_refl eq_refl ltac:(discriminate) ltac:(discriminate)
           (or_introl eq_refl) world0).
Defined.

(** X13. On an [ssl] module where two of the [OP_NO_*] options are distinct
    bits, the truthy candidates are exactly the legacy versions (SSL v2 and
    v3, TLS 1.0, 1.1 and 1.2) whose [HAS_*] attribute holds and whose
    protocol constant is not [0]; TLS 1.3 is never one of them.  With a key
    that decodes and a network that answers, a run probes exactly these, in
    order. *)
Theorem usable_versions_are_probed :
  forall (lower strip : string -> string) (ssl : ssl_module)
         (clock : nat -> string) (network : nat -> request -> result response)
         (args : arguments) (key_bytes : bytes),
    Z.land (OP_NO_TLSv1_1 ssl) (OP_NO_TLSv1_2 ssl) = 0 ->
    Base64.b64decode (strip (authorization_key args)) = Ok key_bytes ->
    (forall n rq, exists r, network n rq = Ok r) ->
    filter truthy (map snd (_get_supported_ssl_versions ssl)) = usable_versions ssl
    /\ forall w, exists w' sent,
         main lower strip ssl clock network args w = (Ok tt, w')
         /\ wire w' = (wire w ++ sent)%list
         /\ map rq_ssl_version sent = usable_versions ssl.
Proof.
  intros lower strip ssl clock network args key_bytes Hbits Hkey Hnet.
  pose proof (truthy_candidates ssl Hbits) as Hc.
  split; [exact Hc|]. intros w. rewrite main_eq.
  destruct (for_each_probe_http lower clock network (stripped strip args) key_bytes
              (_get_supported_ssl_versions ssl) Hkey Hnet
              (printed w (banner strip args)))
    as [w' [lines [sent [E [_ [_ [W V]]]]]]].
  exists w', sent. split; [exact E|]. split; [exact W|].
  now rewrite V.
Qed.

Lemma usable_versions_are_probed_witness :
  filter truthy (map snd (_get_supported_ssl_versions cpython_ssl))
  = usable_versions cpython_ssl
  /\ usable_versions cpython_ssl = [PyInt 3; PyInt 4; PyInt 5].
Proof.
  split; [|reflexivity].
  exact (proj1 (usable_versions_are_probed ascii_lower ascii_strip cpython_ssl
                  clock_1994 network_http_400 args_account
                  ["A"%byte; "B"%byte; "C"%byte] eq_refl eq_refl
                  (fun _ _ => ex_intro _ (Response 400 "TLS query not supported")
                                eq_refl))).
Defined.

Section HmacKeys.

(** HMAC hashes a key longer than a block, and pads a shorter one with
    zeros. *)
Lemma hmac_long_key (key msg : bytes) :
  (64 < List.length key)%nat ->
  HMAC.digest key msg = HMAC.digest (SHA256.sha256 key) msg.
Proof.
  intros Hlen. unfold HMAC.digest, SHA256.block_size.
  rewrite sha256_length.
  apply Nat.ltb_lt in Hlen. rewrite Hlen.
  change (Nat.ltb 64 32) with false. cbv iota.
  now rewrite sha256_length.
Qed.

Lemma hmac_zero_padded_key (key msg : bytes) :
  (List.length key < 64)%nat ->
  HMAC.digest (key ++ [x00])%list msg = HMAC.digest key msg.
Proof.
  intros Hlen. unfold HMAC.digest, SHA256.block_size. cbv zeta.
  assert (H1 : Nat.ltb 64 (List.length (key ++ [x00])%list) = false)
    by (apply Nat.ltb_ge; rewrite length_app; cbn [List.length]; lia).
  assert (H2 : Nat.ltb 64 (List.length key) = false) by (apply Nat.ltb_ge; lia).
  rewrite H1, H2, <- app_assoc, length_app. cbn [List.length].
  replace (64 - List.length key)%nat with (S (64 - (List.length key + 1)))%nat by lia.
  reflexivity.
Qed.

End HmacKeys.

(** X15. Two secrets that HMAC treats alike sign alike: a secret longer
    than 64 bytes and its SHA-256 digest, and a secret shorter than 64 bytes
    with or without a zero byte after it. *)
Theorem equivalent_secrets_sign_alike :
  forall (lower : string -> string) (secret : bytes)
         (verb resource_type resource_link date : string),
    ((64 < List.length secret)%nat ->
     _get_auth_header lower (decode_utf8 (Base64.b64encode secret)) verb
       resource_type resource_link date
     = _get_auth_header lower
         (decode_utf8 (Base64.b64encode (SHA256.sha256 secret))) verb
         resource_type resource_link date)
    /\ ((List.length secret < 64)%nat ->
        _get_auth_header lower
          (decode_utf8 (Base64.b64encode (secret ++ [x00])%list)) verb
          resource_type resource_link date
        = _get_auth_header lower (decode_utf8 (Base64.b64encode secret)) verb
            resource_type resource_link date).
Proof.
  intros lower secret verb resource_type resource_link date.
  rewrite !(sign_unfold lower _ verb resource_type resource_link date _
              (b64decode_b64encode _)).
  split; intros Hlen.
  - now rewrite hmac_long_key.
  - now rewrite hmac_zero_padded_key.
Qed.

Lemma equivalent_secrets_sign_alike_witness :
  _get_auth_header ascii_lower
    (decode_utf8 (Base64.b64encode (["A"%byte; "B"%byte] ++ [x00])%list))
    "get" "dbs" EmptyString "Tue, 01 Nov 1994 08:12:31 GMT"
  = _get_auth_header ascii_lower
      (decode_utf8 (Base64.b64encode ["A"%byte; "B"%byte]))
      "get" "dbs" EmptyString "Tue, 01 Nov 1994 08:12:31 GMT".
Proof.
  exact (proj2 (equivalent_secrets_sign_alike ascii_lower ["A"%byte; "B"%byte]
                  "get" "dbs" EmptyString "Tue, 01 Nov 1994 08:12:31 GMT")
           ltac:(cbn; lia)).
Defined.

(* ================================================================== *)
(** * The prober: what a run reports for a falsy candidate *)

Section RunReports.

Variable lower : string -> string.
Variable clock : nat -> string.
Variable network : nat -> request -> result response.



End RunReports.



